(** * gossh: the session-protocol layer of the SSH server and client

    A shallow embedding of [pkg/ssh/server.go] (authorized-key loading, the
    accept loop, the channel dispatcher, the request loop, the interactive
    terminal and the command executor) and of the exit-code logic of
    [cmd/client.go].

    Conventions.
    - A Go [[]byte] is a [list byte]; a Go [string] is a [string]; the
      conversions [string(b)] and [[]byte(s)] are [String.string_of_list_byte] and
      [String.list_byte_of_string].
    - Calls into [golang.org/x/crypto/ssh], [golang.org/x/term] and [net]
      are not part of the repository.  Their results are inputs of the
      model: a loop that blocks on such a call consumes a list of results,
      and what the loop does to the outside world is returned as a trace.
    - [go f(...)] is an entry in the trace of the spawning loop.  The entry
      carries the trace of the spawned task where that task reads a stream
      received with the event ([GoRequests], [GoHandleConnection]); the
      terminal task announced by [GoTerminal] reads lines that arrive later
      and is run by [createTerminal]. *)

From Stdlib Require Import ZArith Strings.Byte.
From stdpp Require Import gmap strings list fin_maps.

Local Open Scope list_scope.

(** ** Bytes and strings *)

#[global] Instance byte_eq_dec : EqDecision byte := Byte.byte_eq_dec.

(** The one-character string ["\n"]. *)
Definition nl : string := String (Ascii.ascii_of_nat 10) EmptyString.

(** [bytes.HasPrefix]: [len(s) >= len(prefix) && Equal(s[:len(prefix)], prefix)]. *)
Definition HasPrefix (s prefix : list byte) : bool :=
  (length prefix <=? length s)%nat && bool_decide (take (length prefix) s = prefix).

(** [bytes.TrimPrefix]: [s] without the leading [prefix]; [s] itself when it
    does not start with [prefix]. *)
Definition TrimPrefix (s prefix : list byte) : list byte :=
  if HasPrefix s prefix then drop (length prefix) s else s.

(** The SSH wire format of a [string] (RFC 4251, section 5), which is the
    payload of an [exec] request (RFC 4254, section 6.5): a 4-byte
    big-endian length followed by that many bytes. *)
Definition byte_of_Z (z : Z) : byte :=
  default x00 (Byte.of_N (Z.to_N (z mod 256))).

Definition be32 (n : Z) : list byte :=
  [byte_of_Z (n / 16777216); byte_of_Z (n / 65536); byte_of_Z (n / 256); byte_of_Z n].

Definition lengthPrefixed (command : list byte) : list byte :=
  be32 (Z.of_nat (length command)) ++ command.

(** ** Connections, requests and effects *)

(** [ssh.Permissions]: only [Extensions] is used. *)
Record Permissions := { Extensions : gmap string string }.

(** [*ssh.ServerConn]: the authenticated user ([conn.Conn.User()]) and the
    permissions returned by the authentication callback. *)
Record ServerConn := {
  User : string;
  ConnPermissions : option Permissions
}.

(** [*ssh.Request]. *)
Record Request := {
  Type_ : string;
  WantReply : bool;
  Payload : list byte
}.

(** What one call of [termInstance.ReadLine()] returns: a line, or an error
    ([io.EOF] on end of input, or an I/O error of the channel). *)
Inductive ReadLineResult :=
| Line (line : string)
| ReadErr (err : string).

#[global] Instance ReadLineResult_eq_dec : EqDecision ReadLineResult.
Proof. solve_decision. Defined.

(** What a task does to the outside world, in program order. *)
Inductive Effect :=
| Printf (s : string)                       (* fmt.Printf on the server's stdout *)
| ChannelWrite (data : list byte)           (* channel.Write *)
| ChannelSendRequest (name : string) (wantReply : bool) (payload : list byte)
| ReqReply (ok : bool)                      (* req.Reply(ok, nil) *)
| ChannelClose                              (* channel.Close() *)
| GoTerminal                                (* createTerminal: term.NewTerminal and go func() *)
| TermReadLine (r : ReadLineResult)         (* termInstance.ReadLine() returned r *)
| TermWrite (data : list byte).             (* termInstance.Write *)

#[global] Instance Effect_eq_dec : EqDecision Effect.
Proof. solve_decision. Defined.

(** ** CommandExecutor *)

(** [execSomething]. *)
Definition execSomething (conn : ServerConn) (payload : list byte) : string :=
  if decide (String.string_of_list_byte payload = "whoami")
  then "You are: " +:+ User conn +:+ nl
  else "Command Not Found: " +:+ String.string_of_list_byte payload +:+ nl.

(** ** ChannelRequestDispatcher: the request loop of one channel *)

(** The body of [for req := range in]. *)
Definition handleRequest (conn : ServerConn) (req : Request) : list Effect :=
  Printf ("request type made by client: " +:+ Type_ req +:+ nl) ::
  if decide (Type_ req = "exec") then
    let payload := TrimPrefix (Payload req) [x00; x00; x00; x06] in
    [ ChannelWrite (String.list_byte_of_string (execSomething conn payload));
      ChannelSendRequest "exit-status" false [x00; x00; x00; x00];
      ReqReply true;
      ChannelClose ]
  else if decide (Type_ req = "shell") then
    [ ReqReply true ]
  else if decide (Type_ req = "pty-req") then
    [ GoTerminal ]
  else
    [ ReqReply false ].

(** The goroutine [go func(in <-chan *ssh.Request)]: requests are handled one
    at a time in arrival order, and the loop keeps no state between them. *)
Fixpoint handleRequests (conn : ServerConn) (reqs : list Request) : list Effect :=
  match reqs with
  | [] => []
  | req :: rest => handleRequest conn req ++ handleRequests conn rest
  end.

(** ** InteractiveTerminal *)

(** The [switch line] of the terminal loop. *)
Definition terminalDispatch (conn : ServerConn) (line : string) : list Effect :=
  if decide (line = "whoami") then
    [ TermWrite (String.list_byte_of_string
                   (execSomething conn (String.list_byte_of_string "whoami"))) ]
  else if decide (line = "") then
    []
  else if decide (line = "quit") then
    [ TermWrite (String.list_byte_of_string ("Goodbye!" +:+ nl)); ChannelClose ]
  else
    [ TermWrite (String.list_byte_of_string ("Command not found" +:+ nl)) ].

(** Whether a task has run to its end, or is blocked on its next input. *)
Inductive TaskStatus := Finished | Blocked.

#[global] Instance TaskStatus_eq_dec : EqDecision TaskStatus.
Proof. solve_decision. Defined.

(** [createTerminal]: the goroutine it starts on the new terminal, run on the
    results that the successive calls of [ReadLine] return.  The loop is left only through the
    [break] of the error branch; the deferred [channel.Close()] runs then.
    In Go a [switch] case does not fall out of the enclosing [for]: after
    every line, ["quit"] included, the loop calls [ReadLine] again. *)
Fixpoint createTerminal (conn : ServerConn) (reads : list ReadLineResult)
  : list Effect * TaskStatus :=
  match reads with
  | [] => ([], Blocked)
  | ReadErr err :: _ =>
      ([ TermReadLine (ReadErr err);
         Printf ("ReadLine error: " +:+ err);
         ChannelClose ], Finished)
  | Line line :: rest =>
      let '(effects, status) := createTerminal conn rest in
      (TermReadLine (Line line) :: terminalDispatch conn line ++ effects, status)
  end.

(** ** ChannelRequestDispatcher: channel-open events of one connection *)

(** [ssh.RejectionReason]. *)
Inductive RejectionReason :=
| Prohibited | ConnectionFailed | UnknownChannelType | ResourceShortage.

#[global] Instance RejectionReason_eq_dec : EqDecision RejectionReason.
Proof. solve_decision. Defined.

(** [ssh.NewChannel]: its declared type, and what [Accept()] returns when it
    is called: an error, or a channel together with its request stream. *)
Record NewChannel := {
  ChannelType : string;
  AcceptResult : string + list Request
}.

(** What [handleConnection] does for the channel-open events, in order. *)
Inductive ConnEffect :=
| Reject (reason : RejectionReason) (message : string)   (* newChannel.Reject *)
| ConnPrintf (s : string)                                (* fmt.Printf *)
| GoRequests (trace : list Effect).                      (* go func(in): the request loop *)

#[global] Instance ConnEffect_eq_dec : EqDecision ConnEffect.
Proof. solve_decision. Defined.

(** The body of [for newChannel := range chans]. *)
Definition handleNewChannel (conn : ServerConn) (newChannel : NewChannel) : ConnEffect :=
  if decide (ChannelType newChannel ≠ "session") then
    Reject UnknownChannelType "unknown channel type"
  else
    match AcceptResult newChannel with
    | inl err => ConnPrintf ("could not accept channel: " +:+ err +:+ nl)
    | inr requests => GoRequests (handleRequests conn requests)
    end.

(** [handleConnection]. *)
Fixpoint handleConnection (conn : ServerConn) (chans : list NewChannel) : list ConnEffect :=
  match chans with
  | [] => []
  | newChannel :: rest => handleNewChannel conn newChannel :: handleConnection conn rest
  end.

(** ** AuthorizedKeySet and ConnectionAcceptor *)

(** The error of [fmt.Errorf("unknown public key for %q", c.User())]. *)
Inductive AuthError := UnknownPublicKeyFor (user : string).

(** What [StartServer] returns when it returns. *)
Inductive StartError :=
| ParseAuthorizedKeysError (err : string)   (* "parse authorized keys error: %s" *)
| ParsePrivateKeyError (err : string)       (* "ParsePrivateKey error: %s" *)
| ListenError (err : string).               (* "listen error: %s" *)

(** The result of the handshake [ssh.NewServerConn(nConn, config)]: an error,
    or the connection with its stream of channel-open events.  The library
    runs the handshake, calling [PublicKeyCallback] for the keys the client
    offers; its outcome is an input here. *)
Inductive Handshake :=
| HandshakeErr (err : string)
| HandshakeOk (conn : ServerConn) (chans : list NewChannel).

(** The result of one [listener.Accept()], with the handshake that follows. *)
Inductive AcceptEvent :=
| AcceptErr (err : string)
| Accepted (hs : Handshake).

(** The network as [StartServer] sees it: the result of [net.Listen] (an
    error, if any) and of the successive calls of [listener.Accept()]. *)
Record Network := {
  ListenErr : option string;
  Accepts : list AcceptEvent
}.

(** What the accept loop does, in order. *)
Inductive ServeEffect :=
| LogPrint (s : string)                       (* log.Println, log.Printf *)
| ServePrintf (s : string)                    (* fmt.Printf *)
| GoDiscardRequests                           (* go ssh.DiscardRequests(reqs) *)
| GoHandleConnection (trace : list ConnEffect).  (* go handleConnection(conn, chans) *)

Section Server.

(** [ssh.PublicKey] with [string(pubKey.Marshal())] and
    [ssh.FingerprintSHA256]; [ssh.ParseAuthorizedKey], of which the loader
    uses the key, the rest of the input and the error; [ssh.Signer] and
    [ssh.ParsePrivateKey]. *)
Context {PublicKey Signer : Type}.
Variable Marshal : PublicKey → string.
Variable FingerprintSHA256 : PublicKey → string.
Variable ParseAuthorizedKey : list byte → string + (PublicKey * list byte).
Variable ParsePrivateKey : list byte → string + Signer.

(** The loop [for len(authorizedKeys) > 0] of [StartServer], filling
    [authorizedKeysMap].  [ssh.ParseAuthorizedKey] consumes at least one
    byte when it succeeds, so [length authorizedKeys] rounds are enough;
    [None] stands for a loop that has not ended within [fuel] rounds. *)
Fixpoint loadAuthorizedKeys (fuel : nat) (authorizedKeys : list byte)
    (authorizedKeysMap : gmap string bool) : option (string + gmap string bool) :=
  match authorizedKeys with
  | [] => Some (inr authorizedKeysMap)
  | _ :: _ =>
      match fuel with
      | O => None
      | S fuel' =>
          match ParseAuthorizedKey authorizedKeys with
          | inl err => Some (inl err)
          | inr (pubKey, rest) =>
              loadAuthorizedKeys fuel' rest (<[Marshal pubKey := true]> authorizedKeysMap)
          end
      end
  end.

(** [ParsesTo input keys]: the authorized-keys input holds the entries
    [keys], in this order: [ssh.ParseAuthorizedKey] returns them one after
    the other, each time with a shorter rest, down to the empty input. *)
Inductive ParsesTo : list byte → list PublicKey → Prop :=
| ParsesTo_nil : ParsesTo [] []
| ParsesTo_cons input pubKey rest keys :
    ParseAuthorizedKey input = inr (pubKey, rest) →
    length rest < length input →
    ParsesTo rest keys →
    ParsesTo input (pubKey :: keys).

(** The map after the insertion of the entries [keys]. *)
Definition insertKeys (m : gmap string bool) (keys : list PublicKey) : gmap string bool :=
  foldl (λ m pubKey, <[Marshal pubKey := true]> m) m keys.

(** [authorizedKeysMap[string(pubKey.Marshal())]]: a key that is absent
    reads as [false]. *)
Definition Contains (authorizedKeysMap : gmap string bool) (pubKey : PublicKey) : bool :=
  default false (authorizedKeysMap !! Marshal pubKey).

(** The closure [PublicKeyCallback] of the server configuration; [user] is
    [c.User()]. *)
Definition PublicKeyCallback (authorizedKeysMap : gmap string bool)
    (user : string) (pubKey : PublicKey) : AuthError + Permissions :=
  if Contains authorizedKeysMap pubKey then
    inr {| Extensions := {[ "pubkey-fp" := FingerprintSHA256 pubKey ]} |}
  else
    inl (UnknownPublicKeyFor user).

(** [ssh.ServerConfig] after [config.AddHostKey(private)]: the map that its
    [PublicKeyCallback] has captured, and the host keys. *)
Record ServerConfig := {
  AuthorizedKeysMap : gmap string bool;
  HostKeys : list Signer
}.

(** The body of the accept loop [for { ... }]. *)
Definition serveOne (ev : AcceptEvent) : list ServeEffect :=
  match ev with
  | AcceptErr err =>
      [ ServePrintf ("listener accept error: " +:+ err +:+ nl) ]
  | Accepted (HandshakeErr err) =>
      [ ServePrintf ("new server conn error: " +:+ err +:+ nl) ]
  | Accepted (HandshakeOk conn chans) =>
      match ConnPermissions conn with
      | Some perms =>
          [ LogPrint ("logged in with key " +:+ default "" (Extensions perms !! "pubkey-fp")) ]
      | None => []
      end ++
      [ GoDiscardRequests; GoHandleConnection (handleConnection conn chans) ]
  end.

(** The accept loop on the results of the successive [Accept] calls.  It
    has no [return] and no [break]. *)
Fixpoint serveLoop (accepts : list AcceptEvent) : list ServeEffect :=
  match accepts with
  | [] => []
  | ev :: rest => serveOne ev ++ serveLoop rest
  end.

(** The state of a call of [StartServer]: it has returned an error, or it
    is in its accept loop, blocked on the next [listener.Accept()]. *)
Inductive ServeResult :=
| Returned (err : StartError)
| Serving (config : ServerConfig) (trace : list ServeEffect).

(** [StartServer]. *)
Definition StartServer (privateKey authorizedKeys : list byte) (net : Network)
  : option ServeResult :=
  match loadAuthorizedKeys (length authorizedKeys) authorizedKeys ∅ with
  | None => None
  | Some (inl err) => Some (Returned (ParseAuthorizedKeysError err))
  | Some (inr authorizedKeysMap) =>
      match ParsePrivateKey privateKey with
      | inl err => Some (Returned (ParsePrivateKeyError err))
      | inr private =>
          let config := {| AuthorizedKeysMap := authorizedKeysMap;
                           HostKeys := [private] |} in
          match ListenErr net with
          | Some err => Some (Returned (ListenError err))
          | None =>
              Some (Serving config
                      (LogPrint "SSH server started on port 2022" ::
                       serveLoop (Accepts net)))
          end
      end
  end.

End Server.

Arguments Returned {Signer} err.
Arguments Serving {Signer} config trace.

(** ** ClientSessionDriver: the exit code of [gossh client] *)

Module Client.

(** A Go [error] as the client inspects it: the type assertion
    to [ssh.ExitError] succeeds on [ExitError], whose [ExitStatus()] is
    the status reported by the remote side, and fails on any other error. *)
Inductive error :=
| ExitError (status : Z)
| OtherError (msg : string).

(** The results of the calls the command makes, in the order of the code;
    [None] is a [nil] error. *)
Record World := {
  ParseDurationErr : option error;
  ReadFileErr : option error;
  ParsePrivateKeyErr : option error;
  DialErr : option error;
  NewSessionErr : option error;
  RunErr : option error;          (* session.Run(command) *)
  RequestPtyErr : option error;
  ShellErr : option error;
  WaitErr : option error          (* session.Wait() *)
}.

(** What the command logs at the levels Error and Warn.  Its [log.Info] and
    [log.Debug] calls, which have no part in how the command ends, are not
    recorded: an empty list means that no error and no warning was logged. *)
Inductive LogEntry :=
| LogError (msg : string) (err : error)
| LogWarn (msg : string) (status : Z).

(** A computation that logs errors and warnings and either goes on with a
    value or ends the process with [os.Exit(code)]. *)
Definition Proc (A : Type) : Type := list LogEntry * (Z + A).

Definition ret {A} (a : A) : Proc A := ([], inr a).
Definition osExit {A} (code : Z) : Proc A := ([], inl code).
Definition logError (msg : string) (err : error) : Proc unit := ([LogError msg err], inr tt).
Definition logWarn (msg : string) (status : Z) : Proc unit := ([LogWarn msg status], inr tt).
Definition bind {A B} (m : Proc A) (f : A → Proc B) : Proc B :=
  match m with
  | (l, inl code) => (l, inl code)
  | (l, inr a) => let '(l', r) := f a in (l ++ l', r)
  end.

Declare Scope proc_scope.
Delimit Scope proc_scope with proc.
Notation "m ;; k" := (bind m (fun _ => k))
  (at level 100, k at level 200, right associativity) : proc_scope.
Local Open Scope proc_scope.

(** [if err != nil { log.Error(msg, err); ...; os.Exit(1) }]. *)
Definition failOn (msg : string) (err : option error) : Proc unit :=
  match err with
  | Some e => logError msg e ;; osExit 1
  | None => ret tt
  end.

(** The [Run] function of [clientCmd], from the parsing of the timeout to
    its end. *)
Definition clientCmd (command : string) (w : World) : Proc unit :=
  failOn "Invalid timeout format: " (ParseDurationErr w) ;;
  failOn "Failed to load private key: " (ReadFileErr w) ;;
  failOn "Failed to parse private key: " (ParsePrivateKeyErr w) ;;
  failOn "Failed to connect: " (DialErr w) ;;
  failOn "Failed to create session: " (NewSessionErr w) ;;
  if decide (command ≠ "") then
    failOn "Command execution failed: " (RunErr w)
  else
    failOn "Failed to request PTY: " (RequestPtyErr w) ;;
    failOn "Failed to start shell: " (ShellErr w) ;;
    match WaitErr w with
    | Some (ExitError status) =>
        logWarn "Session ended with exit code: " status ;; osExit status
    | Some (OtherError msg) =>
        logError "Session error: " (OtherError msg) ;; osExit 1
    | None => ret tt
    end.

(** The exit code of the process: the argument of [os.Exit], or 0 when the
    command returns. *)
Definition exitCode (p : Proc unit) : Z :=
  match p.2 with
  | inl code => code
  | inr _ => 0
  end.

(** A world in which every call succeeds. *)
Definition allOk : World :=
  {| ParseDurationErr := None; ReadFileErr := None; ParsePrivateKeyErr := None;
     DialErr := None; NewSessionErr := None; RunErr := None;
     RequestPtyErr := None; ShellErr := None; WaitErr := None |}.

End Client.

(** ** Sample data

    A connection, and a small line-oriented stand-in for
    [ssh.ParseAuthorizedKey] on which the loader can be run: a key is a
    non-empty line, and its marshaled form is the line itself. *)

Module Sample.

Definition alice : ServerConn := {| User := "alice"; ConnPermissions := None |}.

Definition bytes (s : string) : list byte := String.list_byte_of_string s.

Definition execRequest (command : string) : Request :=
  {| Type_ := "exec"; WantReply := true; Payload := lengthPrefixed (bytes command) |}.

Definition ptyRequest : Request :=
  {| Type_ := "pty-req"; WantReply := true; Payload := [] |}.

(** The first line of the input (without its newline) and what follows it. *)
Fixpoint splitLine (input : list byte) : list byte * list byte :=
  match input with
  | [] => ([], [])
  | b :: rest =>
      if decide (b = x0a) then ([], rest)
      else let '(line, rest') := splitLine rest in (b :: line, rest')
  end.

Definition Marshal (pubKey : list byte) : string := String.string_of_list_byte pubKey.

Definition FingerprintSHA256 (pubKey : list byte) : string :=
  "SHA256:" +:+ String.string_of_list_byte pubKey.

Definition ParseAuthorizedKey (input : list byte) : string + (list byte * list byte) :=
  match splitLine input with
  | ([], _) => inl "ssh: no key found"
  | (line, rest) => inr (line, rest)
  end.

Definition ParsePrivateKey (pem : list byte) : string + list byte :=
  match pem with
  | [] => inl "ssh: no key found"
  | _ => inr pem
  end.

End Sample.

(** ** Observations on traces *)

(** The values of the replies sent, in order. *)
Definition replies (trace : list Effect) : list bool :=
  omap (λ e, match e with ReqReply ok => Some ok | _ => None end) trace.

(** The data written with [channel.Write], in order. *)
Definition channelWrites (trace : list Effect) : list (list byte) :=
  omap (λ e, match e with ChannelWrite data => Some data | _ => None end) trace.

(** The data written with [termInstance.Write], in order. *)
Definition termWrites (trace : list Effect) : list (list byte) :=
  omap (λ e, match e with TermWrite data => Some data | _ => None end) trace.

(** The channel requests sent, in order. *)
Definition sentRequests (trace : list Effect) : list (string * bool * list byte) :=
  omap (λ e, match e with
             | ChannelSendRequest name wantReply payload => Some (name, wantReply, payload)
             | _ => None
             end) trace.

(** The number of terminals started with [createTerminal]. *)
Definition terminalsStarted (trace : list Effect) : nat :=
  length (filter (λ e, e = GoTerminal) trace).

(** The number of calls of [channel.Close()]. *)
Definition closes (trace : list Effect) : nat :=
  length (filter (λ e, e = ChannelClose) trace).

(** The results of the calls of [ReadLine] made, in order. *)
Definition linesRead (trace : list Effect) : list ReadLineResult :=
  omap (λ e, match e with TermReadLine r => Some r | _ => None end) trace.

(** The request loops started by [handleConnection], in order. *)
Definition requestLoops (trace : list ConnEffect) : list (list Effect) :=
  omap (λ e, match e with GoRequests t => Some t | _ => None end) trace.

(** The rejections sent by [handleConnection], in order. *)
Definition rejections (trace : list ConnEffect) : list (RejectionReason * string) :=
  omap (λ e, match e with Reject reason message => Some (reason, message) | _ => None end)
       trace.

(** What [handleConnection] prints, in order. *)
Definition connPrints (trace : list ConnEffect) : list string :=
  omap (λ e, match e with ConnPrintf s => Some s | _ => None end) trace.

(** What the accept loop prints with [fmt.Printf], in order. *)
Definition servePrints (trace : list ServeEffect) : list string :=
  omap (λ e, match e with ServePrintf s => Some s | _ => None end) trace.

(** The connection handlers started by the accept loop, in order. *)
Definition connectionHandlers (trace : list ServeEffect) : list (list ConnEffect) :=
  omap (λ e, match e with GoHandleConnection t => Some t | _ => None end) trace.

(** The request stream of a channel-open event that [handleConnection]
    accepts: the type is ["session"] and [Accept()] succeeds. *)
Definition acceptedRequests (newChannel : NewChannel) : option (list Request) :=
  if decide (ChannelType newChannel = "session") then
    match AcceptResult newChannel with
    | inl _ => None
    | inr requests => Some requests
    end
  else None.

(** The error of a ["session"] channel-open event whose [Accept()] fails. *)
Definition acceptFailure (newChannel : NewChannel) : option string :=
  if decide (ChannelType newChannel = "session") then
    match AcceptResult newChannel with
    | inl err => Some err
    | inr _ => None
    end
  else None.

(** The error of an [Accept] or of a handshake that fails, with the words
    the accept loop prints before it. *)
Definition acceptLoopFailure (ev : AcceptEvent) : option string :=
  match ev with
  | AcceptErr err => Some ("listener accept error: " +:+ err +:+ nl)
  | Accepted (HandshakeErr err) => Some ("new server conn error: " +:+ err +:+ nl)
  | Accepted (HandshakeOk _ _) => None
  end.

(** The connection of a handshake that succeeds. *)
Definition established (ev : AcceptEvent) : option (ServerConn * list NewChannel) :=
  match ev with
  | Accepted (HandshakeOk conn chans) => Some (conn, chans)
  | _ => None
  end.

(** ** The text of the errors of [StartServer] *)

(** [err.Error()] for the errors that [StartServer] builds with
    [fmt.Errorf]. *)
Definition StartError_Error (e : StartError) : string :=
  match e with
  | ParseAuthorizedKeysError err => "parse authorized keys error: " +:+ err
  | ParsePrivateKeyError err => "ParsePrivateKey error: " +:+ err
  | ListenError err => "listen error: " +:+ err
  end.

Section Entries.

Context {PublicKey : Type}.
Variable ParseAuthorizedKey : list byte → string + (PublicKey * list byte).

(** [ParsesUntil input keys final]: [ssh.ParseAuthorizedKey] returns the
    entries [keys] from [input] one after the other, each time with a
    shorter rest, and [final] is what is left after them. *)
Inductive ParsesUntil : list byte → list PublicKey → list byte → Prop :=
| ParsesUntil_here input : ParsesUntil input [] input
| ParsesUntil_cons input pubKey rest keys final :
    ParseAuthorizedKey input = inr (pubKey, rest) →
    length rest < length input →
    ParsesUntil rest keys final →
    ParsesUntil input (pubKey :: keys) final.

End Entries.

(** ** The server binary, [cmd/server/main.go] *)

Section ServerMain.

Context {PublicKey Signer : Type}.
Variable Marshal : PublicKey → string.
Variable ParseAuthorizedKey : list byte → string + (PublicKey * list byte).
Variable ParsePrivateKey : list byte → string + Signer.

(** How a run of the binary stands: the process has left with
    [os.Exit(code)], or it is inside [StartServer], in the accept loop. *)
Inductive MainResult :=
| Exited (code : Z)
| InStartServer (config : ServerConfig (Signer := Signer)) (trace : list ServeEffect).

(** [main]: the values of the two flags, the file system as [os.ReadFile]
    sees it (an error or the contents, by path) and the network; the result
    is what is printed on the standard output, and how the run stands. *)
Definition serverMain (privateKeyPath pubKeyPath : string)
    (ReadFile : string → string + list byte) (net : Network)
  : option (list string * MainResult) :=
  match ReadFile privateKeyPath with
  | inl err => Some (["Failed to load server key: " +:+ err +:+ nl], Exited 1)
  | inr serverKeyBytes =>
      match ReadFile pubKeyPath with
      | inl err => Some (["Failed to load authorized keys: " +:+ err +:+ nl], Exited 1)
      | inr authorizedKeysBytes =>
          match StartServer Marshal ParseAuthorizedKey ParsePrivateKey
                  serverKeyBytes authorizedKeysBytes net with
          | None => None
          | Some (Returned err) =>
              Some (["Starting SSH server..." +:+ nl;
                     "Error: " +:+ StartError_Error err +:+ nl], Exited 1)
          | Some (Serving config trace) =>
              Some (["Starting SSH server..." +:+ nl], InStartServer config trace)
          end
      end
  end.

End ServerMain.

Arguments Exited {Signer} code.
Arguments InStartServer {Signer} config trace.

(** ** The client binary, [cmd/client/main.go] *)

Module ClientMain.

(** A call [fmt.Printf(format, err)]. *)
Inductive Output := PrintfErr (format : string) (err : Client.error).

(** [if err != nil { fmt.Printf(format, err); os.Exit(1) }], followed by
    the rest of [main]. *)
Definition orExit (format : string) (err : option Client.error)
    (rest : list Output * (Z + unit)) : list Output * (Z + unit) :=
  match err with
  | Some e => ([PrintfErr format e], inl 1%Z)
  | None => rest
  end.

(** [main], after the parsing of the flags: [cmd] is the value of [-cmd]. *)
Definition main (cmd : string) (w : Client.World) : list Output * (Z + unit) :=
  orExit ("Failed to load private key: %v" +:+ nl) (Client.ReadFileErr w) (
  orExit ("Failed to parse private key: %v" +:+ nl) (Client.ParsePrivateKeyErr w) (
  orExit ("Failed to dial: %v" +:+ nl) (Client.DialErr w) (
  orExit ("Failed to create session: %v" +:+ nl) (Client.NewSessionErr w) (
  if decide (cmd ≠ "") then
    orExit ("Failed to run command: %v" +:+ nl) (Client.RunErr w) ([], inr tt)
  else
    orExit ("Failed to request PTY: %v" +:+ nl) (Client.RequestPtyErr w) (
    orExit ("Failed to start shell: %v" +:+ nl) (Client.ShellErr w) (
    match Client.WaitErr w with
    | Some (Client.ExitError status) => ([], inl status)
    | Some (Client.OtherError msg) =>
        ([PrintfErr ("Session error: %v" +:+ nl) (Client.OtherError msg)], inl 1%Z)
    | None => ([], inr tt)
    end)))))).

(** The exit code of the process. *)
Definition exitCode (p : list Output * (Z + unit)) : Z :=
  match p.2 with
  | inl code => code
  | inr _ => 0
  end.

End ClientMain.

(** ** Key generation: [cmd/keygen.go] and [cmd/keygen/main.go] *)

Module Keygen.

(** What the command does: it prints, and it calls
    [os.WriteFile(name, data, perm)], which returns [err]. *)
Inductive Effect :=
| Print (s : string)
| WriteFile (name : string) (data : list byte) (perm : N) (err : option string).

(** The results of the calls: [ssh.GenerateKeys()] of the package
    [pkg/ssh], which returns an error or the private and the public key, and
    the two calls of [os.WriteFile]. *)
Record World := {
  GenerateKeys : string + (list byte * list byte);
  WritePrivateErr : option string;
  WritePublicErr : option string
}.

(** The file modes [0o600] and [0o644]. *)
Definition perm600 : N := 384.
Definition perm644 : N := 420.

(** The [Run] function of [keygenCmd]; the two arguments are the values of
    the flags [--private-key] and [--public-key]. *)
Definition keygenCmd (privateKeyOut publicKeyOut : string) (w : World)
  : list Effect * (Z + unit) :=
  match GenerateKeys w with
  | inl err =>
      ([ Print ("Generating SSH key pair..." +:+ nl);
         Print ("Error generating keys: " +:+ err +:+ nl) ], inl 1%Z)
  | inr (privateKey, publicKey) =>
      match WritePrivateErr w with
      | Some err =>
          ([ Print ("Generating SSH key pair..." +:+ nl);
             WriteFile privateKeyOut privateKey perm600 (Some err);
             Print ("Error writing private key: " +:+ err +:+ nl) ], inl 1%Z)
      | None =>
          match WritePublicErr w with
          | Some err =>
              ([ Print ("Generating SSH key pair..." +:+ nl);
                 WriteFile privateKeyOut privateKey perm600 None;
                 WriteFile publicKeyOut publicKey perm644 (Some err);
                 Print ("Error writing public key: " +:+ err +:+ nl) ], inl 1%Z)
          | None =>
              ([ Print ("Generating SSH key pair..." +:+ nl);
                 WriteFile privateKeyOut privateKey perm600 None;
                 WriteFile publicKeyOut publicKey perm644 None;
                 Print ("SSH key pair generated successfully:" +:+ nl);
                 Print ("Private key: " +:+ privateKeyOut +:+ nl);
                 Print ("Public key: " +:+ publicKeyOut +:+ nl) ], inr tt)
          end
      end
  end.

(** [main] of [cmd/keygen/main.go]. *)
Definition main (w : World) : list Effect * (Z + unit) :=
  match GenerateKeys w with
  | inl err => ([ Print ("Error generating keys: " +:+ err +:+ nl) ], inl 1%Z)
  | inr (privateKey, publicKey) =>
      match WritePrivateErr w with
      | Some err =>
          ([ WriteFile "id_rsa" privateKey perm600 (Some err);
             Print ("Error writing private key: " +:+ err +:+ nl) ], inl 1%Z)
      | None =>
          match WritePublicErr w with
          | Some err =>
              ([ WriteFile "id_rsa" privateKey perm600 None;
                 WriteFile "id_rsa.pub" publicKey perm644 (Some err);
                 Print ("Error writing public key: " +:+ err +:+ nl) ], inl 1%Z)
          | None =>
              ([ WriteFile "id_rsa" privateKey perm600 None;
                 WriteFile "id_rsa.pub" publicKey perm644 None;
                 Print ("SSH key pair generated successfully:" +:+ nl);
                 Print ("Private key: id_rsa" +:+ nl);
                 Print ("Public key: id_rsa.pub" +:+ nl) ], inr tt)
          end
      end
  end.

End Keygen.

(** ** The logger configuration, [cmd/root.go] *)

Module Root.

(** [logrus.Level]. *)
Inductive Level :=
| PanicLevel | FatalLevel | ErrorLevel | WarnLevel | InfoLevel | DebugLevel | TraceLevel.

(** What [initConfig] leaves behind: the level of the logger, whether
    [rootCmd.PersistentPreRun] (the header) is still set, and the messages
    logged on the way. *)
Record Logger := {
  level : Level;
  header : bool;
  logged : list string
}.

(** [initConfig]; the arguments are the values of the flags [--log-level]
    and [--quiet]. *)
Definition initConfig (logLevel : string) (quiet : bool) : Logger :=
  let '(lvl, msgs) :=
    if decide (logLevel = "debug") then (DebugLevel, ["Debug logging enabled"])
    else if decide (logLevel = "info") then (InfoLevel, [])
    else if decide (logLevel = "warn") then (WarnLevel, [])
    else if decide (logLevel = "error") then (ErrorLevel, [])
    else (InfoLevel, []) in
  if quiet then {| level := ErrorLevel; header := false; logged := msgs |}
  else {| level := lvl; header := true; logged := msgs |}.

End Root.

(** * Properties *)

(** ** Byte strings *)

Lemma TrimPrefix_app (prefix s : list byte) : TrimPrefix (prefix ++ s) prefix = s.
Proof.
  unfold TrimPrefix, HasPrefix.
  rewrite take_app_length, drop_app_length, bool_decide_eq_true_2 by done.
  rewrite length_app.
  destruct (Nat.leb_spec (length prefix) (length prefix + length s)); [done | lia].
Qed.

Lemma TrimPrefix_other (prefix s : list byte) :
  take (length prefix) s ≠ prefix → TrimPrefix s prefix = s.
Proof.
  intros Hne. unfold TrimPrefix, HasPrefix.
  rewrite bool_decide_eq_false_2 by done.
  by rewrite andb_false_r.
Qed.

Lemma byte_of_Z_value (z : Z) : Z.of_N (Byte.to_N (byte_of_Z z)) = (z mod 256)%Z.
Proof.
  unfold byte_of_Z.
  assert (0 ≤ z mod 256 < 256)%Z as Hr by (apply Z.mod_pos_bound; lia).
  destruct (Byte.of_N (Z.to_N (z mod 256))) as [b|] eqn:Hb; simpl.
  - apply Byte.to_of_N in Hb. rewrite Hb. lia.
  - apply Byte.of_N_None_iff in Hb. lia.
Qed.

(** Only the length 6 is encoded as [0 0 0 6]. *)
Lemma be32_is_6 (n : Z) :
  (0 ≤ n < 4294967296)%Z → be32 n = [x00; x00; x00; x06] → n = 6%Z.
Proof.
  intros Hn Heq. unfold be32 in Heq.
  injection Heq as H3 H2 H1 H0.
  apply (f_equal (λ b, Z.of_N (Byte.to_N b))) in H3, H2, H1, H0.
  rewrite byte_of_Z_value in H3, H2, H1, H0. simpl in H3, H2, H1, H0.
  clear -Hn H3 H2 H1 H0.
  Z.to_euclidean_division_equations. lia.
Qed.

(** A command of six bytes is decoded by the [exec] handler. *)
Lemma exec_payload_length_6 (command : list byte) :
  length command = 6 →
  TrimPrefix (lengthPrefixed command) [x00; x00; x00; x06] = command.
Proof.
  intros Hlen. unfold lengthPrefixed. rewrite Hlen.
  change (be32 (Z.of_nat 6)) with [x00; x00; x00; x06].
  apply TrimPrefix_app.
Qed.

(** A command of any other length keeps its four length bytes. *)
Lemma exec_payload_other_length (command : list byte) :
  length command ≠ 6 → (Z.of_nat (length command) < 4294967296)%Z →
  TrimPrefix (lengthPrefixed command) [x00; x00; x00; x06] = lengthPrefixed command.
Proof.
  intros Hlen Hbound. apply TrimPrefix_other.
  unfold lengthPrefixed. intros Heq.
  change (length [x00; x00; x00; x06]) with (length (be32 (Z.of_nat (length command)))) in Heq.
  rewrite take_app_length in Heq.
  apply be32_is_6 in Heq; lia.
Qed.

(** ** The [exec] request *)

(** C1, evaluated on the code: the payload of [exec "ls"] is the four length
    bytes [0 0 0 2] followed by ["ls"].  The handler strips the fixed prefix
    [0 0 0 6] only, so the command it hands to the executor is the whole
    payload, length bytes included, and the text it writes to the channel
    names that byte string, not ["ls"]. *)
Theorem exec_ls_keeps_length_bytes :
  let payload := lengthPrefixed (Sample.bytes "ls") in
  payload = [x00; x00; x00; x02] ++ Sample.bytes "ls" ∧
  TrimPrefix payload [x00; x00; x00; x06] = payload ∧
  TrimPrefix payload [x00; x00; x00; x06] ≠ Sample.bytes "ls" ∧
  handleRequest Sample.alice (Sample.execRequest "ls") =
    [ Printf ("request type made by client: exec" +:+ nl);
      ChannelWrite (Sample.bytes ("Command Not Found: " +:+
                                  String.string_of_list_byte payload +:+ nl));
      ChannelSendRequest "exit-status" false [x00; x00; x00; x00];
      ReqReply true;
      ChannelClose ] ∧
  execSomething Sample.alice (TrimPrefix payload [x00; x00; x00; x06]) ≠
    execSomething Sample.alice (Sample.bytes "ls").
Proof. by vm_compute. Qed.

(** C6: for the user [u] of the connection, the executor answers ["whoami"]
    with ["You are: " + u + "\n"] and every other command [c] with
    ["Command Not Found: " + c + "\n"].  The executor is a function from the
    connection and the command to a string: it has no effect to record. *)
Theorem execSomething_table (u : string) (perms : option Permissions) (c : string) :
  let conn := {| User := u; ConnPermissions := perms |} in
  execSomething conn (String.list_byte_of_string "whoami") = "You are: " +:+ u +:+ nl ∧
  (c ≠ "whoami" →
   execSomething conn (String.list_byte_of_string c) = "Command Not Found: " +:+ c +:+ nl).
Proof.
  split.
  - reflexivity.
  - intros Hc. unfold execSomething.
    rewrite String.string_of_list_byte_of_string.
    by rewrite decide_False.
Qed.

Lemma execSomething_table_witness :
  execSomething {| User := "alice"; ConnPermissions := None |}
      (String.list_byte_of_string "whoami") = "You are: alice" +:+ nl ∧
  execSomething {| User := "alice"; ConnPermissions := None |}
      (String.list_byte_of_string "rm -rf /") = "Command Not Found: rm -rf /" +:+ nl.
Proof.
  destruct (execSomething_table "alice" None "rm -rf /") as [Hwho Hother].
  split; [exact Hwho | apply Hother; discriminate].
Defined.

(** The trace of one [exec] request: whatever its payload, the handler
    writes the executor's result to the channel, then sends [exit-status]
    with the four zero bytes as payload, then acknowledges the request, then
    closes the channel, in this order. *)
Theorem handleRequest_exec (conn : ServerConn) (req : Request) :
  Type_ req = "exec" →
  handleRequest conn req =
    [ Printf ("request type made by client: exec" +:+ nl);
      ChannelWrite (String.list_byte_of_string
                      (execSomething conn (TrimPrefix (Payload req) [x00; x00; x00; x06])));
      ChannelSendRequest "exit-status" false [x00; x00; x00; x00];
      ReqReply true;
      ChannelClose ].
Proof.
  intros Htype. unfold handleRequest. by rewrite Htype.
Qed.

Lemma handleRequest_exec_witness :
  handleRequest Sample.alice (Sample.execRequest "whoami") =
    [ Printf ("request type made by client: exec" +:+ nl);
      ChannelWrite (Sample.bytes ("You are: alice" +:+ nl));
      ChannelSendRequest "exit-status" false [x00; x00; x00; x00];
      ReqReply true;
      ChannelClose ]
  ∧ handleRequest Sample.alice (Sample.execRequest "uptime") =
    [ Printf ("request type made by client: exec" +:+ nl);
      ChannelWrite (Sample.bytes ("Command Not Found: uptime" +:+ nl));
      ChannelSendRequest "exit-status" false [x00; x00; x00; x00];
      ReqReply true;
      ChannelClose ].
Proof.
  split.
  - exact (handleRequest_exec Sample.alice (Sample.execRequest "whoami") eq_refl).
  - exact (handleRequest_exec Sample.alice (Sample.execRequest "uptime") eq_refl).
Defined.


(** ** The request loop has no mode *)

Lemma handleRequests_app (conn : ServerConn) (before after : list Request) :
  handleRequests conn (before ++ after) =
  handleRequests conn before ++ handleRequests conn after.
Proof.
  induction before as [|req before IH]; simpl; [done|].
  by rewrite IH, (assoc_L (++)).
Qed.

(** C2 as stated fails: on a channel that receives [pty-req] and then
    [exec "whoami"], the [exec] request is executed and acknowledged; no
    failure reply is sent. *)
Lemma exec_after_pty_is_executed :
  let trace := handleRequests Sample.alice [Sample.ptyRequest; Sample.execRequest "whoami"] in
  trace =
    [ Printf ("request type made by client: pty-req" +:+ nl);
      GoTerminal;
      Printf ("request type made by client: exec" +:+ nl);
      ChannelWrite (Sample.bytes ("You are: alice" +:+ nl));
      ChannelSendRequest "exit-status" false [x00; x00; x00; x00];
      ReqReply true;
      ChannelClose ]
  ∧ ReqReply false ∉ trace.
Proof.
  split; [reflexivity|].
  intros Hin. apply (bool_decide_eq_true_2 _) in Hin.
  vm_compute in Hin. discriminate.
Qed.

(** C2, amended: the request loop keeps no mode of the channel.  An [exec]
    request is executed, acknowledged and followed by the close of the
    channel whatever requests came before it, a [pty-req] that attached a
    terminal included, and the requests around it are handled as they would
    be without it. *)
Theorem exec_handled_in_any_mode (conn : ServerConn) (before after : list Request)
    (req : Request) :
  Type_ req = "exec" →
  handleRequests conn (before ++ req :: after) =
    handleRequests conn before ++
    [ Printf ("request type made by client: exec" +:+ nl);
      ChannelWrite (String.list_byte_of_string
                      (execSomething conn (TrimPrefix (Payload req) [x00; x00; x00; x06])));
      ChannelSendRequest "exit-status" false [x00; x00; x00; x00];
      ReqReply true;
      ChannelClose ] ++
    handleRequests conn after.
Proof.
  intros Htype. rewrite handleRequests_app. cbn [handleRequests].
  f_equal. unfold handleRequest. by rewrite Htype.
Qed.

Lemma exec_handled_in_any_mode_witness :
  handleRequests Sample.alice ([Sample.ptyRequest] ++ Sample.execRequest "whoami" :: []) =
    handleRequests Sample.alice [Sample.ptyRequest] ++
    [ Printf ("request type made by client: exec" +:+ nl);
      ChannelWrite (String.list_byte_of_string
                      (execSomething Sample.alice
                         (TrimPrefix (Payload (Sample.execRequest "whoami"))
                                     [x00; x00; x00; x06])));
      ChannelSendRequest "exit-status" false [x00; x00; x00; x00];
      ReqReply true;
      ChannelClose ] ++
    handleRequests Sample.alice [].
Proof.
  exact (exec_handled_in_any_mode Sample.alice [Sample.ptyRequest] []
           (Sample.execRequest "whoami") eq_refl).
Defined.

(** ** Channel-open events *)

Lemma handleConnection_app (conn : ServerConn) (before after : list NewChannel) :
  handleConnection conn (before ++ after) =
  handleConnection conn before ++ handleConnection conn after.
Proof.
  induction before as [|newChannel before IH]; simpl; [done|]. by rewrite IH.
Qed.

(** C8: a channel-open event whose type is not ["session"] is rejected with
    the reason [UnknownChannelType] and the message ["unknown channel type"];
    the events before it and after it on the connection are processed as
    they are without it. *)
Theorem handleConnection_rejects_other_types (conn : ServerConn)
    (before after : list NewChannel) (newChannel : NewChannel) :
  ChannelType newChannel ≠ "session" →
  handleConnection conn (before ++ newChannel :: after) =
    handleConnection conn before ++
    Reject UnknownChannelType "unknown channel type" ::
    handleConnection conn after.
Proof.
  intros Htype. rewrite handleConnection_app. cbn [handleConnection].
  unfold handleNewChannel. by rewrite decide_True.
Qed.

Lemma handleConnection_rejects_other_types_witness :
  handleConnection Sample.alice
    ([] ++ {| ChannelType := "shell-proxy"; AcceptResult := inr [] |} ::
           [ {| ChannelType := "session";
                AcceptResult := inr [Sample.execRequest "whoami"] |} ]) =
    handleConnection Sample.alice [] ++
    Reject UnknownChannelType "unknown channel type" ::
    handleConnection Sample.alice
      [ {| ChannelType := "session"; AcceptResult := inr [Sample.execRequest "whoami"] |} ].
Proof.
  apply (handleConnection_rejects_other_types Sample.alice [] _
           {| ChannelType := "shell-proxy"; AcceptResult := inr [] |}).
  simpl. discriminate.
Defined.

(** ** The interactive terminal *)

(** An empty line makes the loop do nothing but read the next line. *)
Lemma createTerminal_empty_line (conn : ServerConn) (rest : list ReadLineResult) :
  createTerminal conn (Line "" :: rest) =
    (TermReadLine (Line "") :: (createTerminal conn rest).1, (createTerminal conn rest).2).
Proof. simpl. by destruct (createTerminal conn rest). Qed.

(** The line ["quit"] makes the loop write the farewell and close the
    channel, and then go on with the next [ReadLine]. *)
Lemma createTerminal_quit (conn : ServerConn) (rest : list ReadLineResult) :
  createTerminal conn (Line "quit" :: rest) =
    (TermReadLine (Line "quit") ::
     TermWrite (String.list_byte_of_string ("Goodbye!" +:+ nl)) ::
     ChannelClose ::
     (createTerminal conn rest).1, (createTerminal conn rest).2).
Proof. simpl. by destruct (createTerminal conn rest). Qed.

(** The loop ends on the first error of [ReadLine], and only there. *)
Lemma createTerminal_finished (conn : ServerConn) (reads : list ReadLineResult) :
  (createTerminal conn reads).2 = Finished ↔ ∃ err, ReadErr err ∈ reads.
Proof.
  induction reads as [|[line|err] reads IH]; simpl.
  - split; [done|]. intros [err Hin]. by apply elem_of_nil in Hin.
  - destruct (createTerminal conn reads) as [effects status]; simpl in *.
    rewrite IH. split; intros [err Hin]; exists err.
    + by right.
    + apply elem_of_cons in Hin as [?|?]; [done|done].
  - split; [|done]. intros _. exists err. by left.
Qed.

(** C5, evaluated on the code: after the line ["quit"] the terminal writes
    the farewell and closes the channel, but the loop is not left: the next
    line, ["whoami"], is read and answered, and the task is then waiting in
    [ReadLine] once more. *)
Theorem terminal_reads_on_after_quit :
  createTerminal Sample.alice [Line "quit"; Line "whoami"] =
    ([ TermReadLine (Line "quit");
       TermWrite (Sample.bytes ("Goodbye!" +:+ nl));
       ChannelClose;
       TermReadLine (Line "whoami");
       TermWrite (Sample.bytes ("You are: alice" +:+ nl)) ],
     Blocked).
Proof. reflexivity. Qed.

(** ** The authorized-key set *)

Section AuthorizedKeySet.

Context {PublicKey : Type}.
Variable Marshal : PublicKey → string.
Variable FingerprintSHA256 : PublicKey → string.
Variable ParseAuthorizedKey : list byte → string + (PublicKey * list byte).

Lemma loadAuthorizedKeys_ParsesTo input keys :
  ParsesTo ParseAuthorizedKey input keys →
  ∀ fuel m, length input ≤ fuel →
    loadAuthorizedKeys Marshal ParseAuthorizedKey fuel input m =
      Some (inr (insertKeys Marshal m keys)).
Proof.
  induction 1 as [|input pubKey rest keys Hparse Hlen _ IH]; intros fuel m Hfuel.
  - by destruct fuel.
  - destruct input as [|b input]; [simpl in Hlen; lia|].
    destruct fuel as [|fuel]; [simpl in Hfuel; lia|].
    cbn [loadAuthorizedKeys]. rewrite Hparse.
    rewrite IH by (simpl in *; lia). done.
Qed.

Lemma lookup_insertKeys keys : ∀ m s,
  insertKeys Marshal m keys !! s =
    if decide (s ∈ Marshal <$> keys) then Some true else m !! s.
Proof.
  unfold insertKeys.
  induction keys as [|pubKey keys IH]; intros m s.
  - destruct (decide (s ∈ Marshal <$> [])) as [Hin|_]; [|done].
    by apply elem_of_nil in Hin.
  - cbn [foldl]. rewrite IH. rewrite fmap_cons.
    destruct (decide (s ∈ Marshal <$> keys)) as [Hin|Hnotin].
    + rewrite decide_True; [done|]. by right.
    + destruct (decide (Marshal pubKey = s)) as [<-|Hne].
      * rewrite lookup_insert_eq. rewrite decide_True; [done|]. by left.
      * rewrite lookup_insert_ne by done.
        rewrite decide_False; [done|].
        intros [->|Hin]%elem_of_cons; [done|by apply Hnotin].
Qed.

(** The loader ends within [length input] rounds for every parser that
    consumes input when it succeeds, as [ssh.ParseAuthorizedKey] does. *)
Lemma loadAuthorizedKeys_ends :
  (∀ input pubKey rest,
     ParseAuthorizedKey input = inr (pubKey, rest) → length rest < length input) →
  ∀ fuel input m, length input ≤ fuel →
    is_Some (loadAuthorizedKeys Marshal ParseAuthorizedKey fuel input m).
Proof.
  intros Hconsumes fuel.
  induction fuel as [|fuel IH]; intros input m Hfuel.
  - destruct input; [by eexists|simpl in Hfuel; lia].
  - destruct input as [|b input]; [by eexists|].
    cbn [loadAuthorizedKeys].
    destruct (ParseAuthorizedKey (b :: input)) as [err|[pubKey rest]] eqn:Hparse.
    + by eexists.
    + apply IH. apply Hconsumes in Hparse. simpl in *. lia.
Qed.

(** A load that succeeds has inserted the entries of its input, and nothing
    else. *)
Lemma loadAuthorizedKeys_entries :
  (∀ input pubKey rest,
     ParseAuthorizedKey input = inr (pubKey, rest) → length rest < length input) →
  ∀ fuel input m m',
    loadAuthorizedKeys Marshal ParseAuthorizedKey fuel input m = Some (inr m') →
    ∃ keys, ParsesTo ParseAuthorizedKey input keys ∧ m' = insertKeys Marshal m keys.
Proof.
  intros Hconsumes fuel.
  induction fuel as [|fuel IH]; intros input m m' Hload.
  - destruct input; [|done]. injection Hload as <-. exists []. split; [constructor|done].
  - destruct input as [|b input].
    + injection Hload as <-. exists []. split; [constructor|done].
    + cbn [loadAuthorizedKeys] in Hload.
      destruct (ParseAuthorizedKey (b :: input)) as [err|[pubKey rest]] eqn:Hparse; [done|].
      apply IH in Hload as (keys & Hkeys & ->).
      exists (pubKey :: keys). split; [|done].
      econstructor; [done| |done]. by apply (Hconsumes _ pubKey).
Qed.

(** Membership in the loaded set is membership of the marshaled bytes. *)
Lemma Contains_insertKeys keys pubKey :
  Contains Marshal (insertKeys Marshal ∅ keys) pubKey = true ↔
  Marshal pubKey ∈ Marshal <$> keys.
Proof.
  unfold Contains. rewrite lookup_insertKeys.
  destruct (decide (Marshal pubKey ∈ Marshal <$> keys)); simpl.
  - done.
  - rewrite lookup_empty. simpl. split; [discriminate|done].
Qed.

(** C9: two authorized-keys inputs that hold the same entries in different
    orders are both loaded, and into sets that give the same answer for
    every candidate key; the answer for a candidate is decided by its
    marshaled bytes: it is a member exactly when these are the marshaled
    bytes of an entry, and otherwise the authentication callback returns
    its error. *)
Theorem Contains_order_independent (input1 input2 : list byte)
    (keys1 keys2 : list PublicKey) :
  ParsesTo ParseAuthorizedKey input1 keys1 →
  ParsesTo ParseAuthorizedKey input2 keys2 →
  keys1 ≡ₚ keys2 →
  ∃ m1 m2,
    loadAuthorizedKeys Marshal ParseAuthorizedKey (length input1) input1 ∅ = Some (inr m1) ∧
    loadAuthorizedKeys Marshal ParseAuthorizedKey (length input2) input2 ∅ = Some (inr m2) ∧
    (∀ candidate, Contains Marshal m1 candidate = Contains Marshal m2 candidate) ∧
    (∀ candidate,
       Contains Marshal m1 candidate = true ↔ Marshal candidate ∈ Marshal <$> keys1) ∧
    (∀ user candidate,
       Marshal candidate ∉ Marshal <$> keys1 →
       PublicKeyCallback Marshal FingerprintSHA256 m1 user candidate =
         inl (UnknownPublicKeyFor user)).
Proof.
  intros Hparse1 Hparse2 Hperm.
  exists (insertKeys Marshal ∅ keys1), (insertKeys Marshal ∅ keys2).
  split; [by apply loadAuthorizedKeys_ParsesTo|].
  split; [by apply loadAuthorizedKeys_ParsesTo|].
  split; [|split].
  - intros candidate. unfold Contains. rewrite !lookup_insertKeys.
    destruct (decide (Marshal candidate ∈ Marshal <$> keys1)) as [Hin|Hnotin].
    + rewrite decide_True; [done|]. by rewrite <- Hperm.
    + rewrite decide_False; [done|]. by rewrite <- Hperm.
  - apply Contains_insertKeys.
  - intros user candidate Hnotin. unfold PublicKeyCallback.
    destruct (Contains Marshal (insertKeys Marshal ∅ keys1) candidate) eqn:Hc; [|done].
    by apply Contains_insertKeys in Hc.
Qed.

End AuthorizedKeySet.

Lemma Contains_order_independent_witness :
  let input1 := Sample.bytes ("key-a" +:+ nl +:+ "key-b" +:+ nl) in
  let input2 := Sample.bytes ("key-b" +:+ nl +:+ "key-a" +:+ nl) in
  let keys1 := [Sample.bytes "key-a"; Sample.bytes "key-b"] in
  ∃ m1 m2,
    loadAuthorizedKeys Sample.Marshal Sample.ParseAuthorizedKey (length input1) input1 ∅
      = Some (inr m1) ∧
    loadAuthorizedKeys Sample.Marshal Sample.ParseAuthorizedKey (length input2) input2 ∅
      = Some (inr m2) ∧
    (∀ candidate,
       Contains Sample.Marshal m1 candidate = Contains Sample.Marshal m2 candidate) ∧
    (∀ candidate,
       Contains Sample.Marshal m1 candidate = true ↔
       Sample.Marshal candidate ∈ Sample.Marshal <$> keys1) ∧
    (∀ user candidate,
       Sample.Marshal candidate ∉ Sample.Marshal <$> keys1 →
       PublicKeyCallback Sample.Marshal Sample.FingerprintSHA256 m1 user candidate =
         inl (UnknownPublicKeyFor user)).
Proof.
  intros input1 input2 keys1.
  apply (Contains_order_independent Sample.Marshal Sample.FingerprintSHA256
           Sample.ParseAuthorizedKey input1 input2
           keys1 [Sample.bytes "key-b"; Sample.bytes "key-a"]).
  - eapply ParsesTo_cons; [reflexivity | simpl; lia |].
    eapply ParsesTo_cons; [reflexivity | simpl; lia |].
    apply ParsesTo_nil.
  - eapply ParsesTo_cons; [reflexivity | simpl; lia |].
    eapply ParsesTo_cons; [reflexivity | simpl; lia |].
    apply ParsesTo_nil.
  - apply perm_swap.
Defined.

(** The sample parser consumes input when it succeeds. *)
Lemma Sample_splitLine_length (input : list byte) :
  length (Sample.splitLine input).2 ≤ length input.
Proof.
  induction input as [|b input IH]; simpl; [done|].
  destruct (decide (b = x0a)); simpl; [lia|].
  destruct (Sample.splitLine input) as [line rest]; simpl in *. lia.
Qed.

Lemma Sample_ParseAuthorizedKey_consumes (input pubKey rest : list byte) :
  Sample.ParseAuthorizedKey input = inr (pubKey, rest) → length rest < length input.
Proof.
  unfold Sample.ParseAuthorizedKey. destruct input as [|b input]; [done|].
  pose proof (Sample_splitLine_length input) as Hlen. simpl.
  destruct (decide (b = x0a)); [done|].
  destruct (Sample.splitLine input) as [line rest']; simpl in *.
  intros [= _ <-]. lia.
Qed.

(** ** Starting the server *)

Section StartServer.

Context {PublicKey Signer : Type}.
Variable Marshal : PublicKey → string.
Variable FingerprintSHA256 : PublicKey → string.
Variable ParseAuthorizedKey : list byte → string + (PublicKey * list byte).
Variable ParsePrivateKey : list byte → string + Signer.

Lemma serveLoop_app (before after : list AcceptEvent) :
  serveLoop (before ++ after) = serveLoop before ++ serveLoop after.
Proof.
  induction before as [|ev before IH]; simpl; [done|].
  by rewrite IH, (assoc_L (++)).
Qed.

(** The accept loop never ends: whatever the calls of [Accept] and the
    handshakes return, the server is still serving afterwards. *)
Lemma StartServer_serving_forever privateKey authorizedKeys m private
    (accepts : list AcceptEvent) :
  loadAuthorizedKeys Marshal ParseAuthorizedKey (length authorizedKeys) authorizedKeys ∅
    = Some (inr m) →
  ParsePrivateKey privateKey = inr private →
  StartServer Marshal ParseAuthorizedKey ParsePrivateKey privateKey authorizedKeys
      {| ListenErr := None; Accepts := accepts |} =
    Some (Serving {| AuthorizedKeysMap := m; HostKeys := [private] |}
            (LogPrint "SSH server started on port 2022" :: serveLoop accepts)).
Proof. intros Hload Hkey. unfold StartServer. by rewrite Hload, Hkey. Qed.

(** C3, amended: [StartServer] returns only before its accept loop.  When
    the authorized keys are loaded and the host key is parsed, a failure
    of [net.Listen] is returned to the caller as the listen error; once
    the listener is bound the function does not return: it is in its
    accept loop after any sequence of [Accept] results, where a failed
    [Accept] and a failed handshake each print one line and leave the
    handling of the events before and after them as it is. *)
Theorem StartServer_returns_only_on_bind_failure privateKey authorizedKeys m private :
  loadAuthorizedKeys Marshal ParseAuthorizedKey (length authorizedKeys) authorizedKeys ∅
    = Some (inr m) →
  ParsePrivateKey privateKey = inr private →
  (∀ err accepts,
     StartServer Marshal ParseAuthorizedKey ParsePrivateKey privateKey authorizedKeys
         {| ListenErr := Some err; Accepts := accepts |} =
       Some (Returned (ListenError err))) ∧
  (∀ accepts,
     StartServer Marshal ParseAuthorizedKey ParsePrivateKey privateKey authorizedKeys
         {| ListenErr := None; Accepts := accepts |} =
       Some (Serving {| AuthorizedKeysMap := m; HostKeys := [private] |}
               (LogPrint "SSH server started on port 2022" :: serveLoop accepts))) ∧
  (∀ before after err,
     serveLoop (before ++ AcceptErr err :: after) =
       serveLoop before ++
       ServePrintf ("listener accept error: " +:+ err +:+ nl) :: serveLoop after) ∧
  (∀ before after err,
     serveLoop (before ++ Accepted (HandshakeErr err) :: after) =
       serveLoop before ++
       ServePrintf ("new server conn error: " +:+ err +:+ nl) :: serveLoop after).
Proof.
  intros Hload Hkey. repeat split.
  - intros err accepts. unfold StartServer. by rewrite Hload, Hkey.
  - intros accepts. by apply StartServer_serving_forever.
  - intros before after err. by rewrite serveLoop_app.
  - intros before after err. by rewrite serveLoop_app.
Qed.

(** C10: with an empty authorized-keys input the loader ends at once with
    the empty set; with a host key that parses and a listener that binds,
    the server reaches its accept loop with that set, and the
    authentication callback over it returns its error for every user and
    every offered key. *)
Theorem StartServer_empty_authorized_keys privateKey private (net : Network) :
  ParsePrivateKey privateKey = inr private →
  ListenErr net = None →
  loadAuthorizedKeys Marshal ParseAuthorizedKey (length (@nil byte)) [] ∅ = Some (inr ∅) ∧
  StartServer Marshal ParseAuthorizedKey ParsePrivateKey privateKey [] net =
    Some (Serving {| AuthorizedKeysMap := ∅; HostKeys := [private] |}
            (LogPrint "SSH server started on port 2022" :: serveLoop (Accepts net))) ∧
  (∀ user (pubKey : PublicKey),
     Contains Marshal ∅ pubKey = false ∧
     PublicKeyCallback Marshal FingerprintSHA256 ∅ user pubKey =
       inl (UnknownPublicKeyFor user)).
Proof.
  intros Hkey Hlisten. split; [done|]. split.
  - unfold StartServer. simpl. by rewrite Hkey, Hlisten.
  - intros user pubKey. unfold PublicKeyCallback, Contains.
    by rewrite lookup_empty.
Qed.

End StartServer.

(** C3 as stated fails: a failing [listener.Accept()] does not end
    [StartServer].  The error is printed and the server is still in its
    accept loop; nothing is returned to the caller. *)
Lemma accept_error_does_not_end_StartServer :
  let net := {| ListenErr := None;
                Accepts := [AcceptErr "use of closed network connection"] |} in
  let result :=
    StartServer Sample.Marshal Sample.ParseAuthorizedKey Sample.ParsePrivateKey
      (Sample.bytes "host-key") (Sample.bytes ("key-a" +:+ nl)) net in
  result =
    Some (Serving {| AuthorizedKeysMap := {[ "key-a" := true ]};
                     HostKeys := [Sample.bytes "host-key"] |}
            [ LogPrint "SSH server started on port 2022";
              ServePrintf ("listener accept error: use of closed network connection" +:+ nl) ])
  ∧ ∀ err, result ≠ Some (Returned err).
Proof.
  split; [reflexivity|]. intros err. discriminate.
Qed.

Lemma StartServer_returns_only_on_bind_failure_witness :
  let keys := Sample.bytes ("key-a" +:+ nl) in
  let m : gmap string bool := {[ "key-a" := true ]} in
  (∀ err accepts,
     StartServer Sample.Marshal Sample.ParseAuthorizedKey Sample.ParsePrivateKey
         (Sample.bytes "host-key") keys {| ListenErr := Some err; Accepts := accepts |} =
       Some (Returned (ListenError err))) ∧
  (∀ accepts,
     StartServer Sample.Marshal Sample.ParseAuthorizedKey Sample.ParsePrivateKey
         (Sample.bytes "host-key") keys {| ListenErr := None; Accepts := accepts |} =
       Some (Serving {| AuthorizedKeysMap := m; HostKeys := [Sample.bytes "host-key"] |}
               (LogPrint "SSH server started on port 2022" :: serveLoop accepts))) ∧
  (∀ before after err,
     serveLoop (before ++ AcceptErr err :: after) =
       serveLoop before ++
       ServePrintf ("listener accept error: " +:+ err +:+ nl) :: serveLoop after) ∧
  (∀ before after err,
     serveLoop (before ++ Accepted (HandshakeErr err) :: after) =
       serveLoop before ++
       ServePrintf ("new server conn error: " +:+ err +:+ nl) :: serveLoop after).
Proof.
  intros keys m.
  apply (StartServer_returns_only_on_bind_failure Sample.Marshal
           Sample.ParseAuthorizedKey Sample.ParsePrivateKey
           (Sample.bytes "host-key") keys m (Sample.bytes "host-key")).
  - reflexivity.
  - reflexivity.
Defined.

Lemma StartServer_empty_authorized_keys_witness :
  let net := {| ListenErr := None; Accepts := [] |} in
  loadAuthorizedKeys Sample.Marshal Sample.ParseAuthorizedKey (length (@nil byte)) [] ∅
    = Some (inr ∅) ∧
  StartServer Sample.Marshal Sample.ParseAuthorizedKey Sample.ParsePrivateKey
      (Sample.bytes "host-key") [] net =
    Some (Serving {| AuthorizedKeysMap := ∅; HostKeys := [Sample.bytes "host-key"] |}
            (LogPrint "SSH server started on port 2022" :: serveLoop (Accepts net))) ∧
  (∀ user (pubKey : list byte),
     Contains Sample.Marshal ∅ pubKey = false ∧
     PublicKeyCallback Sample.Marshal Sample.FingerprintSHA256 ∅ user pubKey =
       inl (UnknownPublicKeyFor user)).
Proof.
  intros net.
  apply (StartServer_empty_authorized_keys Sample.Marshal Sample.FingerprintSHA256
           Sample.ParseAuthorizedKey Sample.ParsePrivateKey
           (Sample.bytes "host-key") (Sample.bytes "host-key") net).
  - reflexivity.
  - reflexivity.
Defined.

(** ** The exit code of the client *)

(** With a command, the client leaves with 1 on every error of
    [session.Run], an exit status reported by the remote side included. *)
Lemma clientCmd_exec_error (command : string) (w : Client.World) (err : Client.error) :
  command ≠ "" →
  Client.ParseDurationErr w = None → Client.ReadFileErr w = None →
  Client.ParsePrivateKeyErr w = None → Client.DialErr w = None →
  Client.NewSessionErr w = None →
  Client.RunErr w = Some err →
  Client.clientCmd command w =
    ([Client.LogError "Command execution failed: " err], inl 1%Z).
Proof.
  intros Hcmd H1 H2 H3 H4 H5 Hrun. unfold Client.clientCmd.
  rewrite H1, H2, H3, H4, H5, Hrun. by rewrite decide_True.
Qed.

(** Without a command, an exit status reported by the remote side becomes
    the exit code of the client. *)
Lemma clientCmd_shell_exit_status (w : Client.World) (status : Z) :
  Client.ParseDurationErr w = None → Client.ReadFileErr w = None →
  Client.ParsePrivateKeyErr w = None → Client.DialErr w = None →
  Client.NewSessionErr w = None →
  Client.RequestPtyErr w = None → Client.ShellErr w = None →
  Client.WaitErr w = Some (Client.ExitError status) →
  Client.exitCode (Client.clientCmd "" w) = status.
Proof.
  intros H1 H2 H3 H4 H5 H6 H7 Hwait. unfold Client.clientCmd.
  by rewrite H1, H2, H3, H4, H5, H6, H7, Hwait.
Qed.

(** C4, evaluated on the code: the remote side reports the exit status 2 for
    the command.  The client logs the failure and leaves with the exit code
    1, the code it also leaves with when the connection fails; the same
    status reported at the end of an interactive session is mirrored. *)
Theorem client_exec_exit_status_not_mirrored :
  let remoteExit2 :=
    {| Client.ParseDurationErr := None; Client.ReadFileErr := None;
       Client.ParsePrivateKeyErr := None; Client.DialErr := None;
       Client.NewSessionErr := None; Client.RunErr := Some (Client.ExitError 2);
       Client.RequestPtyErr := None; Client.ShellErr := None; Client.WaitErr := None |} in
  let dialFails :=
    {| Client.ParseDurationErr := None; Client.ReadFileErr := None;
       Client.ParsePrivateKeyErr := None;
       Client.DialErr := Some (Client.OtherError "connection refused");
       Client.NewSessionErr := None; Client.RunErr := None;
       Client.RequestPtyErr := None; Client.ShellErr := None; Client.WaitErr := None |} in
  let shellExit2 :=
    {| Client.ParseDurationErr := None; Client.ReadFileErr := None;
       Client.ParsePrivateKeyErr := None; Client.DialErr := None;
       Client.NewSessionErr := None; Client.RunErr := None;
       Client.RequestPtyErr := None; Client.ShellErr := None;
       Client.WaitErr := Some (Client.ExitError 2) |} in
  Client.clientCmd "false" remoteExit2 =
    ([Client.LogError "Command execution failed: " (Client.ExitError 2)], inl 1%Z) ∧
  Client.exitCode (Client.clientCmd "false" remoteExit2) = 1%Z ∧
  Client.exitCode (Client.clientCmd "false" dialFails) = 1%Z ∧
  Client.exitCode (Client.clientCmd "" shellExit2) = 2%Z.
Proof. by vm_compute. Qed.

(** * Further properties *)

(** ** The request loop, over whole request streams *)

Lemma replies_app (t1 t2 : list Effect) : replies (t1 ++ t2) = replies t1 ++ replies t2.
Proof. apply omap_app. Qed.

Lemma channelWrites_app (t1 t2 : list Effect) :
  channelWrites (t1 ++ t2) = channelWrites t1 ++ channelWrites t2.
Proof. apply omap_app. Qed.

Lemma sentRequests_app (t1 t2 : list Effect) :
  sentRequests (t1 ++ t2) = sentRequests t1 ++ sentRequests t2.
Proof. apply omap_app. Qed.

Lemma closes_app (t1 t2 : list Effect) : closes (t1 ++ t2) = closes t1 + closes t2.
Proof. unfold closes. by rewrite filter_app, length_app. Qed.

(** The four shapes of the trace of one request. *)
Lemma handleRequest_cases (conn : ServerConn) (req : Request) :
  let line := Printf ("request type made by client: " +:+ Type_ req +:+ nl) in
  (Type_ req = "exec" ∧
   handleRequest conn req =
     [ line;
       ChannelWrite (String.list_byte_of_string
                       (execSomething conn (TrimPrefix (Payload req) [x00; x00; x00; x06])));
       ChannelSendRequest "exit-status" false [x00; x00; x00; x00];
       ReqReply true; ChannelClose ]) ∨
  (Type_ req = "shell" ∧ handleRequest conn req = [line; ReqReply true]) ∨
  (Type_ req = "pty-req" ∧ handleRequest conn req = [line; GoTerminal]) ∨
  (Type_ req ≠ "exec" ∧ Type_ req ≠ "shell" ∧ Type_ req ≠ "pty-req" ∧
   handleRequest conn req = [line; ReqReply false]).
Proof.
  unfold handleRequest.
  destruct (decide (Type_ req = "exec")) as [He|He]; [by left|].
  destruct (decide (Type_ req = "shell")) as [Hs|Hs]; [by right; left|].
  destruct (decide (Type_ req = "pty-req")) as [Hp|Hp]; [by right; right; left|].
  by right; right; right.
Qed.

Lemma terminalsStarted_app (t1 t2 : list Effect) :
  terminalsStarted (t1 ++ t2) = terminalsStarted t1 + terminalsStarted t2.
Proof. unfold terminalsStarted. by rewrite filter_app, length_app. Qed.

(** X1: on every request stream, the loop answers each request other than
    [pty-req] with exactly one reply, in arrival order: success for [exec]
    and [shell], failure for every other type.  A [pty-req] request gets no
    reply; each one starts a terminal on the channel, a second one on the
    same channel included. *)
Theorem handleRequests_replies (conn : ServerConn) (reqs : list Request) :
  replies (handleRequests conn reqs) =
    (λ req, bool_decide (Type_ req = "exec" ∨ Type_ req = "shell")) <$>
    filter (λ req, Type_ req ≠ "pty-req") reqs ∧
  terminalsStarted (handleRequests conn reqs) =
    length (filter (λ req, Type_ req = "pty-req") reqs).
Proof.
  induction reqs as [|req reqs [IHr IHt]]; [done|].
  cbn [handleRequests]. rewrite replies_app, terminalsStarted_app, IHr, IHt.
  destruct (handleRequest_cases conn req)
    as [[Ht ->]|[[Ht ->]|[[Ht ->]|(He & Hs & Hp & ->)]]].
  - rewrite filter_cons_True by (rewrite Ht; discriminate).
    rewrite (filter_cons_False (λ req, Type_ req = "pty-req"))
      by (rewrite Ht; discriminate).
    rewrite fmap_cons, bool_decide_eq_true_2 by (by left). done.
  - rewrite filter_cons_True by (rewrite Ht; discriminate).
    rewrite (filter_cons_False (λ req, Type_ req = "pty-req"))
      by (rewrite Ht; discriminate).
    rewrite fmap_cons, bool_decide_eq_true_2 by (by right). done.
  - rewrite filter_cons_False by (by intros Hne; apply Hne).
    rewrite (filter_cons_True (λ req, Type_ req = "pty-req")) by done. done.
  - rewrite filter_cons_True by done.
    rewrite (filter_cons_False (λ req, Type_ req = "pty-req")) by done.
    rewrite fmap_cons, bool_decide_eq_false_2 by (by intros [?|?]). done.
Qed.

(** X2: on every request stream, the loop writes to the channel, sends
    [exit-status] and closes the channel once per [exec] request and never
    otherwise: what it writes are the executor's answers to the [exec]
    requests, in order, each [exit-status] has the four zero bytes as its
    payload and asks for no reply. *)
Theorem handleRequests_exec_effects (conn : ServerConn) (reqs : list Request) :
  let execs := filter (λ req, Type_ req = "exec") reqs in
  channelWrites (handleRequests conn reqs) =
    (λ req, String.list_byte_of_string
              (execSomething conn (TrimPrefix (Payload req) [x00; x00; x00; x06]))) <$> execs ∧
  sentRequests (handleRequests conn reqs) =
    replicate (length execs) ("exit-status", false, [x00; x00; x00; x00]) ∧
  closes (handleRequests conn reqs) = length execs.
Proof.
  induction reqs as [|req reqs (IHw & IHs & IHc)]; [done|].
  cbn [handleRequests].
  rewrite channelWrites_app, sentRequests_app, closes_app, IHw, IHs, IHc.
  destruct (handleRequest_cases conn req)
    as [[Ht ->]|[[Ht ->]|[[Ht ->]|(He & Hs & Hp & ->)]]].
  - rewrite filter_cons_True by done. done.
  - rewrite filter_cons_False by (rewrite Ht; discriminate). done.
  - rewrite filter_cons_False by (rewrite Ht; discriminate). done.
  - rewrite filter_cons_False by done. done.
Qed.

(** ** Decoding the [exec] payload *)

(** X3: for a command shorter than 2^32 bytes, the handler recovers the
    command from its length-prefixed encoding exactly when the command is
    six bytes long. *)
Theorem exec_payload_decoded_iff (command : list byte) :
  (Z.of_nat (length command) < 4294967296)%Z →
  TrimPrefix (lengthPrefixed command) [x00; x00; x00; x06] = command ↔
  length command = 6.
Proof.
  intros Hbound. split.
  - intros Hdec. destruct (decide (length command = 6)) as [|Hne]; [done|].
    rewrite exec_payload_other_length in Hdec by done.
    apply (f_equal length) in Hdec. unfold lengthPrefixed in Hdec.
    rewrite length_app in Hdec. simpl in Hdec. lia.
  - apply exec_payload_length_6.
Qed.

Lemma exec_payload_decoded_iff_witness :
  TrimPrefix (lengthPrefixed (Sample.bytes "whoami")) [x00; x00; x00; x06]
    = Sample.bytes "whoami" ↔
  length (Sample.bytes "whoami") = 6.
Proof.
  apply (exec_payload_decoded_iff (Sample.bytes "whoami")). simpl. lia.
Defined.

(** X4: an [exec] payload that does not begin with the bytes [0 0 0 6], an
    empty or a truncated one included, is not refused: the whole payload is
    taken as the command, the answer is written, success is reported and
    the channel is closed. *)
Theorem handleRequest_exec_unprefixed (conn : ServerConn) (wantReply : bool)
    (payload : list byte) :
  take 4 payload ≠ [x00; x00; x00; x06] →
  handleRequest conn {| Type_ := "exec"; WantReply := wantReply; Payload := payload |} =
    [ Printf ("request type made by client: exec" +:+ nl);
      ChannelWrite (String.list_byte_of_string (execSomething conn payload));
      ChannelSendRequest "exit-status" false [x00; x00; x00; x00];
      ReqReply true;
      ChannelClose ].
Proof.
  intros Hprefix. unfold handleRequest. simpl.
  by rewrite (TrimPrefix_other [x00; x00; x00; x06] payload).
Qed.

Lemma handleRequest_exec_unprefixed_witness :
  handleRequest Sample.alice {| Type_ := "exec"; WantReply := false; Payload := [] |} =
    [ Printf ("request type made by client: exec" +:+ nl);
      ChannelWrite (Sample.bytes ("Command Not Found: " +:+ nl));
      ChannelSendRequest "exit-status" false [x00; x00; x00; x00];
      ReqReply true;
      ChannelClose ].
Proof.
  apply (handleRequest_exec_unprefixed Sample.alice false []). simpl. discriminate.
Defined.

(** ** The interactive terminal, over whole inputs *)

Lemma closes_cons_other (e : Effect) (t : list Effect) :
  e ≠ ChannelClose → closes (e :: t) = closes t.
Proof. intros He. unfold closes. by rewrite filter_cons_False. Qed.

(** What the terminal does for the lines [lines], read one after the other. *)
Lemma createTerminal_lines (conn : ServerConn) (lines : list string)
    (reads : list ReadLineResult) :
  createTerminal conn ((Line <$> lines) ++ reads) =
    (flat_map (λ line, TermReadLine (Line line) :: terminalDispatch conn line) lines ++
     (createTerminal conn reads).1,
     (createTerminal conn reads).2).
Proof.
  induction lines as [|line lines IH].
  - simpl. by destruct (createTerminal conn reads).
  - rewrite fmap_cons. cbn [app createTerminal]. rewrite IH.
    cbn [flat_map fst snd]. by rewrite <- !(assoc_L (++)).
Qed.

(** X5: the terminal task handles the lines it reads one by one and stays
    blocked in [ReadLine] as long as no read fails.  At the first read that
    fails it prints the error, closes the channel and ends; whatever input
    would follow is never read. *)
Theorem createTerminal_until_error (conn : ServerConn) (lines : list string) :
  let handled :=
    flat_map (λ line, TermReadLine (Line line) :: terminalDispatch conn line) lines in
  createTerminal conn (Line <$> lines) = (handled, Blocked) ∧
  ∀ err rest,
    createTerminal conn ((Line <$> lines) ++ ReadErr err :: rest) =
      (handled ++ [ TermReadLine (ReadErr err);
                    Printf ("ReadLine error: " +:+ err);
                    ChannelClose ],
       Finished).
Proof.
  split.
  - rewrite <- (app_nil_r (Line <$> lines)), createTerminal_lines. simpl.
    by rewrite app_nil_r.
  - intros err rest. by rewrite createTerminal_lines.
Qed.

(** X6: whatever is typed, the terminal writes only three texts: the answer
    to ["whoami"] for the user of the connection, the farewell, and the
    fixed not-found message, which does not repeat the line. *)
Theorem createTerminal_writes (conn : ServerConn) (reads : list ReadLineResult)
    (data : list byte) :
  data ∈ termWrites (createTerminal conn reads).1 →
  data = String.list_byte_of_string ("You are: " +:+ User conn +:+ nl) ∨
  data = String.list_byte_of_string ("Goodbye!" +:+ nl) ∨
  data = String.list_byte_of_string ("Command not found" +:+ nl).
Proof.
  induction reads as [|[line|err] reads IH]; simpl.
  - by intros ?%elem_of_nil.
  - destruct (createTerminal conn reads) as [effects status]; simpl in *.
    unfold termWrites in *. rewrite omap_app.
    intros [Hin|Hin]%elem_of_app; [|by apply IH].
    unfold terminalDispatch in Hin.
    repeat case_decide; simpl in Hin;
      repeat (apply elem_of_cons in Hin as [->|Hin]; [by auto|]);
      by apply elem_of_nil in Hin.
  - by intros ?%elem_of_nil.
Qed.

Lemma createTerminal_writes_witness :
  Sample.bytes ("Command not found" +:+ nl) =
    String.list_byte_of_string ("You are: " +:+ User Sample.alice +:+ nl) ∨
  Sample.bytes ("Command not found" +:+ nl) =
    String.list_byte_of_string ("Goodbye!" +:+ nl) ∨
  Sample.bytes ("Command not found" +:+ nl) =
    String.list_byte_of_string ("Command not found" +:+ nl).
Proof.
  apply (createTerminal_writes Sample.alice [Line "rm -rf /"; Line "quit"]).
  simpl. apply elem_of_cons. by left.
Defined.

(** X7: the terminal task calls [channel.Close()] once for every line
    ["quit"] it reads, and once more when it ends: after ["quit"] followed
    by the end of the input the channel has been closed twice. *)
Theorem createTerminal_closes (conn : ServerConn) (reads : list ReadLineResult) :
  let '(trace, status) := createTerminal conn reads in
  closes trace =
    length (filter (λ r, r = Line "quit") (linesRead trace)) +
    (if decide (status = Finished) then 1 else 0).
Proof.
  induction reads as [|[line|err] reads IH]; simpl; [done| |done].
  destruct (createTerminal conn reads) as [effects status]; simpl in *.
  rewrite closes_cons_other, closes_app by done.
  unfold linesRead in *. rewrite omap_app.
  rewrite IH. unfold terminalDispatch.
  destruct (decide (line = "quit")) as [->|Hq].
  - rewrite filter_cons_True by done. simpl. done.
  - rewrite filter_cons_False by congruence.
    repeat case_decide; try done; simpl; done.
Qed.

(** ** Channel-open events, over whole connections *)

(** X8: over the whole stream of channel-open events, [handleConnection]
    starts one request loop for each ["session"] channel that it accepts,
    in order and on that channel's requests; it sends one rejection
    ["unknown channel type"] for each event of another type; and it prints
    one line for each ["session"] channel whose [Accept()] fails, and goes
    on with the next event. *)
Theorem handleConnection_loops_and_rejections (conn : ServerConn)
    (chans : list NewChannel) :
  requestLoops (handleConnection conn chans) =
    handleRequests conn <$> omap acceptedRequests chans ∧
  rejections (handleConnection conn chans) =
    replicate (length (filter (λ newChannel, ChannelType newChannel ≠ "session") chans))
              (UnknownChannelType, "unknown channel type") ∧
  connPrints (handleConnection conn chans) =
    (λ err, "could not accept channel: " +:+ err +:+ nl) <$> omap acceptFailure chans.
Proof.
  induction chans as [|newChannel chans (IHl & IHr & IHp)]; [done|].
  cbn [handleConnection]. unfold requestLoops, rejections, connPrints in *.
  cbn [omap list_omap]. rewrite IHl, IHr, IHp.
  unfold handleNewChannel, acceptedRequests, acceptFailure.
  destruct (decide (ChannelType newChannel ≠ "session")) as [Hne|Heq].
  - rewrite filter_cons_True by done. by rewrite !decide_False.
  - rewrite filter_cons_False by done. apply dec_stable in Heq.
    rewrite !decide_True by done.
    by destruct (AcceptResult newChannel).
Qed.

(** ** Loading the authorized keys, further *)

Section Loading.

Context {PublicKey Signer : Type}.
Variable Marshal : PublicKey → string.
Variable FingerprintSHA256 : PublicKey → string.
Variable ParseAuthorizedKey : list byte → string + (PublicKey * list byte).
Variable ParsePrivateKey : list byte → string + Signer.

(** After the entries [keys] the loader goes on with what is left. *)
Lemma loadAuthorizedKeys_ParsesUntil input keys final :
  ParsesUntil ParseAuthorizedKey input keys final →
  ∀ fuel m, length input ≤ fuel →
    ∃ fuel', length final ≤ fuel' ∧
      loadAuthorizedKeys Marshal ParseAuthorizedKey fuel input m =
      loadAuthorizedKeys Marshal ParseAuthorizedKey fuel' final (insertKeys Marshal m keys).
Proof.
  induction 1 as [input|input pubKey rest keys final Hparse Hlen _ IH];
    intros fuel m Hfuel.
  - by exists fuel.
  - destruct input as [|b input]; [simpl in Hlen; lia|].
    destruct fuel as [|fuel]; [simpl in Hfuel; lia|].
    cbn [loadAuthorizedKeys]. rewrite Hparse.
    destruct (IH fuel (<[Marshal pubKey := true]> m)) as (fuel' & Hfuel' & ->);
      [simpl in *; lia|].
    by exists fuel'.
Qed.

Lemma loadAuthorizedKeys_malformed (input bad : list byte) (keys : list PublicKey)
    (err : string) :
  ParsesUntil ParseAuthorizedKey input keys bad →
  bad ≠ [] →
  ParseAuthorizedKey bad = inl err →
  loadAuthorizedKeys Marshal ParseAuthorizedKey (length input) input ∅ = Some (inl err).
Proof.
  intros Huntil Hbad Herr.
  destruct (loadAuthorizedKeys_ParsesUntil _ _ _ Huntil (length input) ∅)
    as (fuel' & Hfuel' & ->); [done|].
  destruct bad as [|b bad]; [done|].
  destruct fuel' as [|fuel']; [simpl in Hfuel'; lia|].
  cbn [loadAuthorizedKeys]. by rewrite Herr.
Qed.

(** X9: an entry that [ssh.ParseAuthorizedKey] refuses fails the whole
    load, wherever it stands in the input: the entries before it are
    dropped with it, and [StartServer] returns the parse error whatever the
    host key and the network are. *)
Theorem StartServer_malformed_entry (input bad : list byte) (keys : list PublicKey)
    (err : string) :
  ParsesUntil ParseAuthorizedKey input keys bad →
  bad ≠ [] →
  ParseAuthorizedKey bad = inl err →
  loadAuthorizedKeys Marshal ParseAuthorizedKey (length input) input ∅ = Some (inl err) ∧
  ∀ privateKey net,
    StartServer Marshal ParseAuthorizedKey ParsePrivateKey privateKey input net =
      Some (Returned (ParseAuthorizedKeysError err)).
Proof.
  intros Huntil Hbad Herr.
  pose proof (loadAuthorizedKeys_malformed _ _ _ _ Huntil Hbad Herr) as Hload.
  split; [done|]. intros privateKey net. unfold StartServer. by rewrite Hload.
Qed.

(** X10: two inputs whose entries have the same marshaled forms are loaded
    into the same map, whatever the order of the entries and however often
    an entry is repeated. *)
Theorem loadAuthorizedKeys_same_entries (input1 input2 : list byte)
    (keys1 keys2 : list PublicKey) :
  ParsesTo ParseAuthorizedKey input1 keys1 →
  ParsesTo ParseAuthorizedKey input2 keys2 →
  (∀ s, s ∈ Marshal <$> keys1 ↔ s ∈ Marshal <$> keys2) →
  ∃ m,
    loadAuthorizedKeys Marshal ParseAuthorizedKey (length input1) input1 ∅ = Some (inr m) ∧
    loadAuthorizedKeys Marshal ParseAuthorizedKey (length input2) input2 ∅ = Some (inr m).
Proof.
  intros Hp1 Hp2 Hsame. exists (insertKeys Marshal ∅ keys1).
  split; [by apply loadAuthorizedKeys_ParsesTo|].
  rewrite (loadAuthorizedKeys_ParsesTo Marshal ParseAuthorizedKey _ _ Hp2) by done.
  do 2 f_equal. apply map_eq. intros s. rewrite !lookup_insertKeys.
  destruct (decide (s ∈ Marshal <$> keys1)) as [Hin|Hnotin].
  - rewrite decide_True; [done|]. by apply Hsame.
  - rewrite decide_False; [done|]. by rewrite <- Hsame.
Qed.

(** X11: a key that is an entry of the input, or that has the marshaled
    form of one, is granted access for every user name, and the permissions
    it gets hold one extension, ["pubkey-fp"], with the fingerprint of the
    key that was offered. *)
Theorem PublicKeyCallback_grants_entry (input : list byte) (keys : list PublicKey)
    (entry offered : PublicKey) :
  ParsesTo ParseAuthorizedKey input keys →
  entry ∈ keys →
  Marshal offered = Marshal entry →
  ∃ m,
    loadAuthorizedKeys Marshal ParseAuthorizedKey (length input) input ∅ = Some (inr m) ∧
    ∀ user,
      PublicKeyCallback Marshal FingerprintSHA256 m user offered =
        inr {| Extensions := {[ "pubkey-fp" := FingerprintSHA256 offered ]} |}.
Proof.
  intros Hparse Hin Hsame. exists (insertKeys Marshal ∅ keys).
  split; [by apply loadAuthorizedKeys_ParsesTo|].
  intros user. unfold PublicKeyCallback.
  assert (Contains Marshal (insertKeys Marshal ∅ keys) offered = true) as ->; [|done].
  apply Contains_insertKeys. rewrite Hsame. by apply list_elem_of_fmap_2.
Qed.

(** X12: a successful handshake with the permissions that the callback
    grants to a key is logged with the fingerprint of that key, and is
    followed by the start of the two tasks of the connection. *)
Theorem serveOne_logs_fingerprint (m : gmap string bool) (user : string)
    (offered : PublicKey) (perms : Permissions) (chans : list NewChannel) :
  PublicKeyCallback Marshal FingerprintSHA256 m user offered = inr perms →
  let conn := {| User := user; ConnPermissions := Some perms |} in
  serveOne (Accepted (HandshakeOk conn chans)) =
    [ LogPrint ("logged in with key " +:+ FingerprintSHA256 offered);
      GoDiscardRequests;
      GoHandleConnection (handleConnection conn chans) ].
Proof.
  unfold PublicKeyCallback.
  destruct (Contains Marshal m offered); [|done].
  intros [= <-]. simpl. by rewrite lookup_singleton_eq.
Qed.

Lemma loadAuthorizedKeys_error_inv :
  (∀ input pubKey rest,
     ParseAuthorizedKey input = inr (pubKey, rest) → length rest < length input) →
  ∀ fuel input m err,
    loadAuthorizedKeys Marshal ParseAuthorizedKey fuel input m = Some (inl err) →
    ∃ keys bad,
      ParsesUntil ParseAuthorizedKey input keys bad ∧ bad ≠ [] ∧
      ParseAuthorizedKey bad = inl err.
Proof.
  intros Hconsumes fuel.
  induction fuel as [|fuel IH]; intros input m err Hload.
  - by destruct input.
  - destruct input as [|b input]; [done|].
    cbn [loadAuthorizedKeys] in Hload.
    destruct (ParseAuthorizedKey (b :: input)) as [err'|[pubKey rest]] eqn:Hparse.
    + injection Hload as ->. exists [], (b :: input).
      split; [constructor|]. by split.
    + apply IH in Hload as (keys & bad & Huntil & Hbad & Herr).
      exists (pubKey :: keys), bad. split; [|done].
      econstructor; [done| |done]. by apply (Hconsumes _ pubKey).
Qed.

(** X13: for a parser that consumes input whenever it returns a key, as
    [ssh.ParseAuthorizedKey] does, the loading loop ends on every input.  It
    ends with a map only when the whole input has been read as entries, and
    the map then holds exactly these; it ends with an error only when
    the parser has refused what was left after some entries. *)
Theorem loadAuthorizedKeys_outcome (input : list byte) :
  (∀ input pubKey rest,
     ParseAuthorizedKey input = inr (pubKey, rest) → length rest < length input) →
  ∃ result,
    loadAuthorizedKeys Marshal ParseAuthorizedKey (length input) input ∅ = Some result ∧
    match result with
    | inr m =>
        ∃ keys, ParsesTo ParseAuthorizedKey input keys ∧ m = insertKeys Marshal ∅ keys
    | inl err =>
        ∃ keys bad,
          ParsesUntil ParseAuthorizedKey input keys bad ∧ bad ≠ [] ∧
          ParseAuthorizedKey bad = inl err
    end.
Proof.
  intros Hconsumes.
  destruct (loadAuthorizedKeys_ends Marshal ParseAuthorizedKey Hconsumes
              (length input) input ∅) as [result Hload]; [done|].
  exists result. split; [done|].
  destruct result as [err|m].
  - by eapply loadAuthorizedKeys_error_inv.
  - by eapply loadAuthorizedKeys_entries.
Qed.

(** X14: end to end.  On a server whose keys are loaded and whose listener
    is bound, a client that is granted access by the callback, opens a
    ["session"] channel and sends [exec] with the encoded command
    ["whoami"] makes the server log the client's fingerprint, start the
    tasks of the connection, and answer on the channel with
    ["You are: " + user + "\n"], the exit status 0, a positive reply and
    the close of the channel. *)
Theorem StartServer_whoami_end_to_end (privateKey authorizedKeys : list byte)
    (m : gmap string bool) (private : Signer) (user : string) (offered : PublicKey)
    (perms : Permissions) (wantReply : bool) :
  loadAuthorizedKeys Marshal ParseAuthorizedKey (length authorizedKeys) authorizedKeys ∅
    = Some (inr m) →
  ParsePrivateKey privateKey = inr private →
  PublicKeyCallback Marshal FingerprintSHA256 m user offered = inr perms →
  let conn := {| User := user; ConnPermissions := Some perms |} in
  let session :=
    {| ChannelType := "session";
       AcceptResult := inr [ {| Type_ := "exec"; WantReply := wantReply;
                                Payload := lengthPrefixed
                                             (String.list_byte_of_string "whoami") |} ] |} in
  StartServer Marshal ParseAuthorizedKey ParsePrivateKey privateKey authorizedKeys
      {| ListenErr := None; Accepts := [Accepted (HandshakeOk conn [session])] |} =
    Some (Serving {| AuthorizedKeysMap := m; HostKeys := [private] |}
            [ LogPrint "SSH server started on port 2022";
              LogPrint ("logged in with key " +:+ FingerprintSHA256 offered);
              GoDiscardRequests;
              GoHandleConnection
                [ GoRequests
                    [ Printf ("request type made by client: exec" +:+ nl);
                      ChannelWrite (String.list_byte_of_string
                                      ("You are: " +:+ user +:+ nl));
                      ChannelSendRequest "exit-status" false [x00; x00; x00; x00];
                      ReqReply true;
                      ChannelClose ] ] ]).
Proof.
  intros Hload Hkey Hauth conn session.
  unfold StartServer. rewrite Hload, Hkey. simpl.
  unfold PublicKeyCallback in Hauth.
  destruct (Contains Marshal m offered); [|done].
  injection Hauth as <-. simpl. by rewrite lookup_singleton_eq.
Qed.

(** X15: when both files are read and an entry of the authorized-keys file
    is refused, the server binary prints that it starts, prints the parse
    error and leaves with the exit code 1; the host key is not looked at and
    no port is bound. *)
Theorem serverMain_malformed_authorized_keys (privateKeyPath pubKeyPath : string)
    (ReadFile : string → string + list byte) (net : Network)
    (serverKeyBytes input bad : list byte) (keys : list PublicKey) (err : string) :
  ReadFile privateKeyPath = inr serverKeyBytes →
  ReadFile pubKeyPath = inr input →
  ParsesUntil ParseAuthorizedKey input keys bad →
  bad ≠ [] →
  ParseAuthorizedKey bad = inl err →
  serverMain Marshal ParseAuthorizedKey ParsePrivateKey privateKeyPath pubKeyPath
      ReadFile net =
    Some ([ "Starting SSH server..." +:+ nl;
            "Error: parse authorized keys error: " +:+ err +:+ nl ],
          Exited 1).
Proof.
  intros Hkey Hauth Huntil Hbad Herr.
  pose proof (loadAuthorizedKeys_malformed _ _ _ _ Huntil Hbad Herr) as Hload.
  unfold serverMain, StartServer. by rewrite Hkey, Hauth, Hload.
Qed.

(** X16: when both files are read, the authorized keys are loaded and the
    host key is parsed, the server binary leaves only if the port cannot be
    bound, with the listen error on its output and the exit code 1;
    otherwise it stays in the accept loop of [StartServer], whatever the
    connections bring. *)
Theorem serverMain_bind (privateKeyPath pubKeyPath : string)
    (ReadFile : string → string + list byte)
    (serverKeyBytes input : list byte) (m : gmap string bool) (private : Signer) :
  ReadFile privateKeyPath = inr serverKeyBytes →
  ReadFile pubKeyPath = inr input →
  loadAuthorizedKeys Marshal ParseAuthorizedKey (length input) input ∅ = Some (inr m) →
  ParsePrivateKey serverKeyBytes = inr private →
  (∀ err accepts,
     serverMain Marshal ParseAuthorizedKey ParsePrivateKey privateKeyPath pubKeyPath
         ReadFile {| ListenErr := Some err; Accepts := accepts |} =
       Some ([ "Starting SSH server..." +:+ nl;
               "Error: listen error: " +:+ err +:+ nl ], Exited 1)) ∧
  (∀ accepts,
     serverMain Marshal ParseAuthorizedKey ParsePrivateKey privateKeyPath pubKeyPath
         ReadFile {| ListenErr := None; Accepts := accepts |} =
       Some ([ "Starting SSH server..." +:+ nl ],
             InStartServer {| AuthorizedKeysMap := m; HostKeys := [private] |}
               (LogPrint "SSH server started on port 2022" :: serveLoop accepts))).
Proof.
  intros Hkey Hauth Hload Hpriv.
  split; intros; unfold serverMain, StartServer;
    by rewrite Hkey, Hauth, Hload, Hpriv.
Qed.

End Loading.

(** X17: the accept loop starts one connection handler for each handshake
    that succeeds, in order, on the channel-open events of that connection;
    a failed [Accept] or a failed handshake starts none and prints one line
    with its error. *)
Theorem serveLoop_handlers (accepts : list AcceptEvent) :
  connectionHandlers (serveLoop accepts) =
    (λ '(conn, chans), handleConnection conn chans) <$> omap established accepts ∧
  servePrints (serveLoop accepts) = omap acceptLoopFailure accepts.
Proof.
  induction accepts as [|ev accepts [IHh IHp]]; [done|].
  cbn [serveLoop]. unfold connectionHandlers, servePrints in *.
  rewrite !omap_app, IHh, IHp.
  destruct ev as [err|[err|conn chans]]; [done|done|].
  simpl. by destruct (ConnPermissions conn).
Qed.

Lemma StartServer_malformed_entry_witness :
  let input := Sample.bytes ("key-a" +:+ nl +:+ nl +:+ "key-b" +:+ nl) in
  loadAuthorizedKeys Sample.Marshal Sample.ParseAuthorizedKey (length input) input ∅
    = Some (inl "ssh: no key found") ∧
  ∀ privateKey net,
    StartServer Sample.Marshal Sample.ParseAuthorizedKey Sample.ParsePrivateKey
        privateKey input net =
      Some (Returned (ParseAuthorizedKeysError "ssh: no key found")).
Proof.
  intros input.
  apply (StartServer_malformed_entry Sample.Marshal Sample.ParseAuthorizedKey
           Sample.ParsePrivateKey input (Sample.bytes (nl +:+ "key-b" +:+ nl))
           [Sample.bytes "key-a"] "ssh: no key found").
  - eapply ParsesUntil_cons; [reflexivity | simpl; lia | apply ParsesUntil_here].
  - discriminate.
  - reflexivity.
Defined.

Lemma loadAuthorizedKeys_same_entries_witness :
  let input1 := Sample.bytes ("key-a" +:+ nl +:+ "key-b" +:+ nl +:+ "key-a" +:+ nl) in
  let input2 := Sample.bytes ("key-b" +:+ nl +:+ "key-a" +:+ nl) in
  ∃ m,
    loadAuthorizedKeys Sample.Marshal Sample.ParseAuthorizedKey (length input1) input1 ∅
      = Some (inr m) ∧
    loadAuthorizedKeys Sample.Marshal Sample.ParseAuthorizedKey (length input2) input2 ∅
      = Some (inr m).
Proof.
  intros input1 input2.
  apply (loadAuthorizedKeys_same_entries Sample.Marshal Sample.ParseAuthorizedKey
           input1 input2
           [Sample.bytes "key-a"; Sample.bytes "key-b"; Sample.bytes "key-a"]
           [Sample.bytes "key-b"; Sample.bytes "key-a"]).
  - eapply ParsesTo_cons; [reflexivity | simpl; lia |].
    eapply ParsesTo_cons; [reflexivity | simpl; lia |].
    eapply ParsesTo_cons; [reflexivity | simpl; lia |].
    apply ParsesTo_nil.
  - eapply ParsesTo_cons; [reflexivity | simpl; lia |].
    eapply ParsesTo_cons; [reflexivity | simpl; lia |].
    apply ParsesTo_nil.
  - intros s. rewrite !list_elem_of_In. simpl. tauto.
Defined.

Lemma PublicKeyCallback_grants_entry_witness :
  let input := Sample.bytes ("key-a" +:+ nl +:+ "key-b" +:+ nl) in
  ∃ m,
    loadAuthorizedKeys Sample.Marshal Sample.ParseAuthorizedKey (length input) input ∅
      = Some (inr m) ∧
    ∀ user,
      PublicKeyCallback Sample.Marshal Sample.FingerprintSHA256 m user (Sample.bytes "key-b") =
        inr {| Extensions := {[ "pubkey-fp" := "SHA256:key-b" ]} |}.
Proof.
  intros input.
  apply (PublicKeyCallback_grants_entry Sample.Marshal Sample.FingerprintSHA256
           Sample.ParseAuthorizedKey input
           [Sample.bytes "key-a"; Sample.bytes "key-b"]
           (Sample.bytes "key-b") (Sample.bytes "key-b")).
  - eapply ParsesTo_cons; [reflexivity | simpl; lia |].
    eapply ParsesTo_cons; [reflexivity | simpl; lia |].
    apply ParsesTo_nil.
  - apply elem_of_cons. right. apply elem_of_cons. by left.
  - reflexivity.
Defined.

Lemma serveOne_logs_fingerprint_witness :
  let perms := {| Extensions := {[ "pubkey-fp" := "SHA256:key-a" ]} |} in
  let conn := {| User := "alice"; ConnPermissions := Some perms |} in
  serveOne (Accepted (HandshakeOk conn [])) =
    [ LogPrint ("logged in with key " +:+ Sample.FingerprintSHA256 (Sample.bytes "key-a"));
      GoDiscardRequests;
      GoHandleConnection (handleConnection conn []) ].
Proof.
  intros perms conn.
  apply (serveOne_logs_fingerprint Sample.Marshal Sample.FingerprintSHA256
           {[ "key-a" := true ]} "alice" (Sample.bytes "key-a") perms []).
  reflexivity.
Defined.

Lemma serverMain_malformed_authorized_keys_witness :
  let ReadFile := λ path : string,
    if decide (path = "server.pem") then inr (Sample.bytes "host-key")
    else if decide (path = "authorized_keys")
         then inr (Sample.bytes ("key-a" +:+ nl +:+ nl +:+ "key-b" +:+ nl))
         else inl "no such file or directory" in
  serverMain Sample.Marshal Sample.ParseAuthorizedKey Sample.ParsePrivateKey
      "server.pem" "authorized_keys" ReadFile {| ListenErr := None; Accepts := [] |} =
    Some ([ "Starting SSH server..." +:+ nl;
            "Error: parse authorized keys error: ssh: no key found" +:+ nl ],
          Exited 1).
Proof.
  intros ReadFile.
  apply (serverMain_malformed_authorized_keys Sample.Marshal Sample.ParseAuthorizedKey
           Sample.ParsePrivateKey "server.pem" "authorized_keys" ReadFile
           {| ListenErr := None; Accepts := [] |}
           (Sample.bytes "host-key")
           (Sample.bytes ("key-a" +:+ nl +:+ nl +:+ "key-b" +:+ nl))
           (Sample.bytes (nl +:+ "key-b" +:+ nl))
           [Sample.bytes "key-a"] "ssh: no key found").
  - reflexivity.
  - reflexivity.
  - eapply ParsesUntil_cons; [reflexivity | simpl; lia | apply ParsesUntil_here].
  - discriminate.
  - reflexivity.
Defined.

Lemma serverMain_bind_witness :
  let ReadFile := λ path : string,
    if decide (path = "server.pem") then inr (Sample.bytes "host-key")
    else if decide (path = "authorized_keys") then inr (Sample.bytes ("key-a" +:+ nl))
         else inl "no such file or directory" in
  (∀ err accepts,
     serverMain Sample.Marshal Sample.ParseAuthorizedKey Sample.ParsePrivateKey
         "server.pem" "authorized_keys" ReadFile
         {| ListenErr := Some err; Accepts := accepts |} =
       Some ([ "Starting SSH server..." +:+ nl;
               "Error: listen error: " +:+ err +:+ nl ], Exited 1)) ∧
  (∀ accepts,
     serverMain Sample.Marshal Sample.ParseAuthorizedKey Sample.ParsePrivateKey
         "server.pem" "authorized_keys" ReadFile
         {| ListenErr := None; Accepts := accepts |} =
       Some ([ "Starting SSH server..." +:+ nl ],
             InStartServer {| AuthorizedKeysMap := {[ "key-a" := true ]};
                              HostKeys := [Sample.bytes "host-key"] |}
               (LogPrint "SSH server started on port 2022" :: serveLoop accepts))).
Proof.
  intros ReadFile.
  apply (serverMain_bind Sample.Marshal Sample.ParseAuthorizedKey Sample.ParsePrivateKey
           "server.pem" "authorized_keys" ReadFile
           (Sample.bytes "host-key") (Sample.bytes ("key-a" +:+ nl))
           {[ "key-a" := true ]} (Sample.bytes "host-key")).
  - reflexivity.
  - reflexivity.
  - reflexivity.
  - reflexivity.
Defined.

(** ** The client, over all outcomes of its calls *)

Ltac client_cases w :=
  destruct w as [pd rf pk dial ns run pty sh wait]; simpl in *;
  destruct pd as [?|], rf as [?|], pk as [?|], dial as [?|], ns as [?|].

(** A step has failed: its error is the one logged. *)
Ltac client_failed :=
  right; do 2 eexists; split; [|reflexivity];
  repeat first [by apply list_elem_of_here | apply list_elem_of_further].

(** X18: with a command, the client leaves with the exit code 0 exactly
    when the parsing of the timeout, the reading and the parsing of the key,
    the dial, the opening of the session and the run of the command all
    succeed.  Otherwise it logs one error, an error of one of these six
    steps, and leaves with the exit code 1.  The results of the calls of the
    interactive branch play no part. *)
Theorem clientCmd_command_outcome (command : string) (w : Client.World) :
  command ≠ "" →
  let steps := [ Client.ParseDurationErr w; Client.ReadFileErr w;
                 Client.ParsePrivateKeyErr w; Client.DialErr w;
                 Client.NewSessionErr w; Client.RunErr w ] in
  (Forall (λ step, step = None) steps ∧
   Client.exitCode (Client.clientCmd command w) = 0%Z) ∨
  (∃ msg err, Some err ∈ steps ∧
     Client.clientCmd command w = ([Client.LogError msg err], inl 1%Z)).
Proof.
  intros Hcmd steps. subst steps. unfold Client.clientCmd.
  rewrite decide_True by done.
  client_cases w; try by client_failed.
  destruct run as [?|]; [by client_failed|].
  left. split; [|done]. by repeat constructor.
Qed.

Lemma clientCmd_command_outcome_witness :
  let w := {| Client.ParseDurationErr := None; Client.ReadFileErr := None;
              Client.ParsePrivateKeyErr := None; Client.DialErr := None;
              Client.NewSessionErr := None;
              Client.RunErr := Some (Client.ExitError 3);
              Client.RequestPtyErr := None; Client.ShellErr := None;
              Client.WaitErr := None |} in
  let steps := [ Client.ParseDurationErr w; Client.ReadFileErr w;
                 Client.ParsePrivateKeyErr w; Client.DialErr w;
                 Client.NewSessionErr w; Client.RunErr w ] in
  (Forall (λ step, step = None) steps ∧
   Client.exitCode (Client.clientCmd "uptime" w) = 0%Z) ∨
  (∃ msg err, Some err ∈ steps ∧
     Client.clientCmd "uptime" w = ([Client.LogError msg err], inl 1%Z)).
Proof.
  intros w. apply (clientCmd_command_outcome "uptime" w). discriminate.
Defined.

(** X19: without a command, when every step before [session.Wait()]
    succeeds, the exit code of the client is 0 if the session ends without
    error, the exit status reported by the remote side if it ends with one,
    and 1 on any other error.  When one of the steps before fails, the client
    logs that error alone and leaves with 1. *)
Theorem clientCmd_interactive_outcome (w : Client.World) :
  let steps := [ Client.ParseDurationErr w; Client.ReadFileErr w;
                 Client.ParsePrivateKeyErr w; Client.DialErr w;
                 Client.NewSessionErr w; Client.RequestPtyErr w; Client.ShellErr w ] in
  (Forall (λ step, step = None) steps ∧
   Client.exitCode (Client.clientCmd "" w) =
     match Client.WaitErr w with
     | None => 0%Z
     | Some (Client.ExitError status) => status
     | Some (Client.OtherError _) => 1%Z
     end) ∨
  (∃ msg err, Some err ∈ steps ∧
     Client.clientCmd "" w = ([Client.LogError msg err], inl 1%Z)).
Proof.
  intros steps. subst steps. unfold Client.clientCmd.
  rewrite decide_False by (by intros Hne; apply Hne).
  client_cases w; try by client_failed.
  destruct pty as [?|], sh as [?|]; try by client_failed.
  left. split; [by repeat constructor|].
  by destruct wait as [[?|?]|].
Qed.

(** X20: the client binary of [cmd/client/main.go] and the [client]
    subcommand leave with the same exit code on the same command and the
    same results of their calls, provided the timeout of the subcommand
    parses (the binary has no such flag). *)
Theorem client_main_same_exit_code (cmd : string) (w : Client.World) :
  Client.ParseDurationErr w = None →
  ClientMain.exitCode (ClientMain.main cmd w) =
  Client.exitCode (Client.clientCmd cmd w).
Proof.
  intros Hpd. unfold ClientMain.main, Client.clientCmd.
  destruct w as [pd rf pk dial ns run pty sh wait]; simpl in *. subst pd.
  destruct rf as [?|], pk as [?|], dial as [?|], ns as [?|]; try done.
  destruct (decide (cmd ≠ "")).
  - by destruct run as [?|].
  - destruct pty as [?|], sh as [?|]; try done.
    by destruct wait as [[?|?]|].
Qed.

Lemma client_main_same_exit_code_witness :
  let w := {| Client.ParseDurationErr := None; Client.ReadFileErr := None;
              Client.ParsePrivateKeyErr := None; Client.DialErr := None;
              Client.NewSessionErr := None; Client.RunErr := None;
              Client.RequestPtyErr := None; Client.ShellErr := None;
              Client.WaitErr := Some (Client.ExitError 7) |} in
  ClientMain.exitCode (ClientMain.main "" w) = Client.exitCode (Client.clientCmd "" w).
Proof.
  intros w. apply (client_main_same_exit_code "" w). reflexivity.
Defined.

(** ** Key generation *)

(** X21: whatever the flags and the results of the calls, [keygen] writes
    the private key only with the mode [0o600] and the public key only with
    the mode [0o644], each to the file named by its flag; it writes nothing
    when the generation fails, and it does not write the public key unless
    the private key has been written without error. *)
Theorem keygenCmd_writes (privateKeyOut publicKeyOut : string) (w : Keygen.World)
    (name : string) (data : list byte) (perm : N) (err : option string) :
  Keygen.WriteFile name data perm err ∈ (Keygen.keygenCmd privateKeyOut publicKeyOut w).1 →
  ∃ privateKey publicKey,
    Keygen.GenerateKeys w = inr (privateKey, publicKey) ∧
    ((name = privateKeyOut ∧ data = privateKey ∧ perm = Keygen.perm600 ∧
      err = Keygen.WritePrivateErr w) ∨
     (name = publicKeyOut ∧ data = publicKey ∧ perm = Keygen.perm644 ∧
      err = Keygen.WritePublicErr w ∧ Keygen.WritePrivateErr w = None)).
Proof.
  unfold Keygen.keygenCmd.
  destruct w as [[gerr|[privateKey publicKey]] [e1|] [e2|]]; simpl;
    intros Hin;
    repeat (apply elem_of_cons in Hin as [Heq|Hin];
            [first [ discriminate Heq
                   | simplify_eq; do 2 eexists; split; [reflexivity|]; by auto 10 ] |]);
    by apply elem_of_nil in Hin.
Qed.

Lemma keygenCmd_writes_witness :
  let w := {| Keygen.GenerateKeys := inr (Sample.bytes "PRIVATE", Sample.bytes "ssh-rsa AAAA");
              Keygen.WritePrivateErr := None;
              Keygen.WritePublicErr := Some "permission denied" |} in
  ∃ privateKey publicKey,
    Keygen.GenerateKeys w = inr (privateKey, publicKey) ∧
    (("key.pub" = "key.pem" ∧ Sample.bytes "ssh-rsa AAAA" = privateKey ∧
      Keygen.perm644 = Keygen.perm600 ∧
      Some "permission denied" = Keygen.WritePrivateErr w) ∨
     ("key.pub" = "key.pub" ∧ Sample.bytes "ssh-rsa AAAA" = publicKey ∧
      Keygen.perm644 = Keygen.perm644 ∧
      Some "permission denied" = Keygen.WritePublicErr w ∧
      Keygen.WritePrivateErr w = None)).
Proof.
  intros w.
  apply (keygenCmd_writes "key.pem" "key.pub" w "key.pub"
           (Sample.bytes "ssh-rsa AAAA") Keygen.perm644 (Some "permission denied")).
  simpl. apply list_elem_of_further, list_elem_of_further, list_elem_of_here.
Defined.

(** X22: the binary of [cmd/keygen/main.go] behaves as the subcommand
    [keygen] with its default file names [id_rsa] and [id_rsa.pub]: the
    same files written with the same contents and modes, the same messages
    and the same exit, except that the subcommand first announces the
    generation. *)
Theorem keygen_main_is_default_keygenCmd (w : Keygen.World) :
  Keygen.keygenCmd "id_rsa" "id_rsa.pub" w =
    (Keygen.Print ("Generating SSH key pair..." +:+ nl) :: (Keygen.main w).1,
     (Keygen.main w).2).
Proof.
  unfold Keygen.keygenCmd, Keygen.main.
  by destruct w as [[gerr|[privateKey publicKey]] [e1|] [e2|]].
Qed.

(** ** The logger configuration *)

(** X23: with [--quiet] the logger ends at the level [ErrorLevel] and the
    header is switched off, whatever [--log-level] says; the message
    ["Debug logging enabled"] is logged all the same when the level asked
    for is ["debug"], and only then. *)
Theorem initConfig_quiet (logLevel : string) :
  Root.level (Root.initConfig logLevel true) = Root.ErrorLevel ∧
  Root.header (Root.initConfig logLevel true) = false ∧
  (Root.logged (Root.initConfig logLevel true) = ["Debug logging enabled"] ∧ logLevel = "debug"
   ∨ Root.logged (Root.initConfig logLevel true) = [] ∧ logLevel ≠ "debug").
Proof.
  unfold Root.initConfig. repeat case_decide; simpl; auto.
Qed.

Lemma loadAuthorizedKeys_outcome_witness :
  let input := Sample.bytes ("key-a" +:+ nl +:+ "key-b") in
  ∃ result,
    loadAuthorizedKeys Sample.Marshal Sample.ParseAuthorizedKey (length input) input ∅
      = Some result ∧
    match result with
    | inr m =>
        ∃ keys, ParsesTo Sample.ParseAuthorizedKey input keys ∧
                m = insertKeys Sample.Marshal ∅ keys
    | inl err =>
        ∃ keys bad,
          ParsesUntil Sample.ParseAuthorizedKey input keys bad ∧ bad ≠ [] ∧
          Sample.ParseAuthorizedKey bad = inl err
    end.
Proof.
  intros input.
  apply (loadAuthorizedKeys_outcome Sample.Marshal Sample.ParseAuthorizedKey input).
  apply Sample_ParseAuthorizedKey_consumes.
Defined.

Lemma StartServer_whoami_end_to_end_witness :
  let perms := {| Extensions := {[ "pubkey-fp" := "SHA256:key-a" ]} |} in
  let conn := {| User := "alice"; ConnPermissions := Some perms |} in
  let session :=
    {| ChannelType := "session";
       AcceptResult := inr [ {| Type_ := "exec"; WantReply := true;
                                Payload := lengthPrefixed
                                             (String.list_byte_of_string "whoami") |} ] |} in
  StartServer Sample.Marshal Sample.ParseAuthorizedKey Sample.ParsePrivateKey
      (Sample.bytes "host-key") (Sample.bytes ("key-a" +:+ nl))
      {| ListenErr := None; Accepts := [Accepted (HandshakeOk conn [session])] |} =
    Some (Serving {| AuthorizedKeysMap := {[ "key-a" := true ]};
                     HostKeys := [Sample.bytes "host-key"] |}
            [ LogPrint "SSH server started on port 2022";
              LogPrint ("logged in with key " +:+
                        Sample.FingerprintSHA256 (Sample.bytes "key-a"));
              GoDiscardRequests;
              GoHandleConnection
                [ GoRequests
                    [ Printf ("request type made by client: exec" +:+ nl);
                      ChannelWrite (String.list_byte_of_string
                                      ("You are: " +:+ "alice" +:+ nl));
                      ChannelSendRequest "exit-status" false [x00; x00; x00; x00];
                      ReqReply true;
                      ChannelClose ] ] ]).
Proof.
  intros perms conn session.
  apply (StartServer_whoami_end_to_end Sample.Marshal Sample.FingerprintSHA256
           Sample.ParseAuthorizedKey Sample.ParsePrivateKey
           (Sample.bytes "host-key") (Sample.bytes ("key-a" +:+ nl))
           {[ "key-a" := true ]} (Sample.bytes "host-key") "alice"
           (Sample.bytes "key-a") perms true).
  - reflexivity.
  - reflexivity.
  - reflexivity.
Defined.
